(** * mcp-gopls: lifecycle controller, progress notifier and test/coverage tools

    A shallow embedding of [cmd/mcp-gopls/main.go], [pkg/tools/notifications.go]
    and [pkg/tools/testing.go], with the properties their specification states.

    Go strings are byte strings ([string], one [ascii] per byte); Go maps with
    string keys are [gmap string _]; nil-able pointers and interfaces are
    [option]; a Go [(value, error)] result is a pair whose second component is
    an [option error], or a sum where the value is unused on failure.
    Code that talks to the operating system or to the MCP SDK runs in a small
    state monad over an explicit world (file system and call trace); what the
    outside answers is read from an environment record. *)

From Stdlib Require Import ZArith NArith Ascii String List Bool Lia.
From stdpp Require Import base option strings list gmap.

Local Open Scope string_scope.

(* ===================================================================== *)
(** ** The Go [strings] functions the program calls *)
(* ===================================================================== *)

Module GoStrings.

(** The Unicode-aware slow paths of the standard library.  The fast paths
    below are the library's own ASCII loops; the tables behind
    [unicode.ToLower] and [unicode.IsSpace] are outside the repository and
    are left abstract. *)
Class Unicode := {
  Map_ToLower : string -> string;           (* strings.Map(unicode.ToLower, s) *)
  TrimFunc_IsSpace : string -> string;      (* strings.TrimFunc(s, unicode.IsSpace) *)
  TrimRightFunc_IsSpace : string -> string  (* strings.TrimRightFunc(s, unicode.IsSpace) *)
}.

Definition byte (c : ascii) : N := N_of_ascii c.

(** [utf8.RuneSelf = 0x80]: bytes below it are single-byte runes. *)
Definition RuneSelf : N := 128.

Definition isUpperByte (c : ascii) : bool :=
  ((65 <=? byte c) && (byte c <=? 90))%N.

(** [c += 'a' - 'A'] on an upper-case ASCII letter. *)
Definition lowerByte (c : ascii) : ascii :=
  if isUpperByte c then ascii_of_N (byte c + 32) else c.

Fixpoint isASCII (s : string) : bool :=
  match s with
  | EmptyString => true
  | String c s' => if (RuneSelf <=? byte c)%N then false else isASCII s'
  end.

Fixpoint hasUpper (s : string) : bool :=
  match s with
  | EmptyString => false
  | String c s' => isUpperByte c || hasUpper s'
  end.

Fixpoint mapBytes (f : ascii -> ascii) (s : string) : string :=
  match s with
  | EmptyString => EmptyString
  | String c s' => String (f c) (mapBytes f s')
  end.

(** [strings.ToLower]: ASCII-only strings are lowered byte by byte (and
    returned as they are when they hold no upper-case letter); any other
    string goes through [unicode.ToLower]. *)
Definition ToLower `{Unicode} (s : string) : string :=
  if isASCII s then
    if hasUpper s then mapBytes lowerByte s else s
  else Map_ToLower s.

(** [strings.HasSuffix]:
    [len(s) >= len(suffix) && s[len(s)-len(suffix):] == suffix]. *)
Definition HasSuffix (s suffix : string) : bool :=
  (String.length suffix <=? String.length s)%nat
  && String.eqb
       (substring (String.length s - String.length suffix)
                  (String.length suffix) s)
       suffix.

(** The [asciiSpace] table: tab, newline, vertical tab, form feed,
    carriage return, space. *)
Definition asciiSpace (c : ascii) : bool :=
  let b := byte c in
  ((b =? 9) || (b =? 10) || (b =? 11) || (b =? 12) || (b =? 13) || (b =? 32))%N.

(** First loop of [strings.TrimSpace]: advance [start] over ASCII spaces.
    [inl rest] is [s[start:]] when the loop stops at a non-space byte or at
    the end; [inr rest] is [s[start:]] when it meets a non-ASCII byte and
    hands over to [TrimFunc]. *)
Fixpoint trimStart (s : string) : string + string :=
  match s with
  | EmptyString => inl EmptyString
  | String c s' =>
      if (RuneSelf <=? byte c)%N then inr s
      else if asciiSpace c then trimStart s'
      else inl s
  end.

(** Second loop: move [stop] down from the end over ASCII spaces.
    [inl r] is [s[start:stop]] after the loop; [inr r] is [s[start:stop]]
    at the moment a non-ASCII byte is met at [stop-1], for
    [TrimRightFunc]. *)
Fixpoint trimStop (s : string) : string + string :=
  match s with
  | EmptyString => inl EmptyString
  | String c s' =>
      match trimStop s' with
      | inl EmptyString =>
          if (RuneSelf <=? byte c)%N then inr (String c EmptyString)
          else if asciiSpace c then inl EmptyString
          else inl (String c EmptyString)
      | inl r => inl (String c r)
      | inr r => inr (String c r)
      end
  end.

Definition TrimSpace `{Unicode} (s : string) : string :=
  match trimStart s with
  | inr rest => TrimFunc_IsSpace rest
  | inl rest =>
      match trimStop rest with
      | inr r => TrimRightFunc_IsSpace r
      | inl r => r
      end
  end.

(** A stand-in for the Unicode tables that leaves non-ASCII text alone;
    used to run the definitions on concrete inputs. *)
Definition asciiOnly : Unicode :=
  {| Map_ToLower := fun s => s;
     TrimFunc_IsSpace := fun s => s;
     TrimRightFunc_IsSpace := fun s => s |}.

End GoStrings.

(* ===================================================================== *)
(** ** Errors *)
(* ===================================================================== *)

Module GoErrors.

(** An operand of a formatting verb other than [%w]. *)
Inductive operand : Type :=
| OpString (s : string)       (* a string under %q or %s *)
| OpDuration (d : Z).         (* a time.Duration under %s *)

(** The error values the program builds or inspects.  [ExitError] is
    [*exec.ExitError] (the process ran and exited with a non-zero status);
    [Errorf format operands] is [fmt.Errorf(format, ...)] and [Errorf_w] is
    the same with a [%w] verb, whose operand is [inner]; [Errno] stands for
    any other error of the runtime (path errors, [exec.ErrNotFound],
    context errors, ...). *)
Inductive error : Type :=
| errors_New (text : string)
| Errno (text : string)
| ExitError (status : Z)
| Errorf (format : string) (operands : list operand)
| Errorf_w (format : string) (operands : list operand) (inner : error).

(** [errors.Unwrap]. *)
Definition Unwrap (e : error) : option error :=
  match e with
  | Errorf_w _ _ inner => Some inner
  | _ => None
  end.

(** [errors.As(err, &exitErr)] with [exitErr : *exec.ExitError]: walks the
    chain of wrapped errors until one is an [ExitError]. *)
Fixpoint As_ExitError (e : error) : bool :=
  match e with
  | ExitError _ => true
  | Errorf_w _ _ inner => As_ExitError inner
  | _ => false
  end.

End GoErrors.

(* ===================================================================== *)
(** ** State passing *)
(* ===================================================================== *)

(** Computations that read and change a world of type [St]. *)
Definition State (St A : Type) : Type := St -> A * St.

Definition ret {St A} (a : A) : State St A := fun s => (a, s).

Definition bind {St A B} (m : State St A) (k : A -> State St B) : State St B :=
  fun s => let (a, s') := m s in k a s'.

Notation "'let*' p ':=' m 'in' k" := (bind m (fun p => k))
  (at level 10, p pattern, m at level 100, k at level 200).

(** Go's [defer d] at the head of [body]: [d] runs when [body] has produced
    its result, on whichever return statement that was. *)
Definition defer {St A} (d : State St unit) (body : State St A) : State St A :=
  let* a := body in
  let* _ := d in
  ret a.

(* ===================================================================== *)
(** ** cmd/mcp-gopls: the lifecycle controller *)
(* ===================================================================== *)

Module Main.
Import GoStrings GoErrors.

(** [slog.Level] is an integer; these are its four named values. *)
Definition Level : Type := Z.
Definition LevelDebug : Level := (-4)%Z.
Definition LevelInfo : Level := 0%Z.
Definition LevelWarn : Level := 4%Z.
Definition LevelError : Level := 8%Z.

Definition parseLogLevel `{Unicode} (level : string) : Level * option error :=
  let l := ToLower level in
  if String.eqb l "debug" then (LevelDebug, None)
  else if String.eqb l "info" then (LevelInfo, None)
  else if String.eqb l "warn" || String.eqb l "warning" then (LevelWarn, None)
  else if String.eqb l "error" then (LevelError, None)
  else (LevelInfo, Some (Errorf "unknown log level %q" [OpString level])).

(** [server.Config], with the fields [buildConfigFromFlags] assigns;
    durations are nanosecond counts. *)
Record Config := {
  WorkspaceDir : string;
  GoplsPath : string;
  LogFile : string;
  LogJSON : bool;
  LogLevel : Level;
  RPCTimeout : Z;
  ShutdownTimeout : Z
}.

(** What [os.Stat] reports about a path. *)
Record FileInfo := { IsDir : bool; Mode : Z }.

(** The values of the command-line flags once [flag.Parse] has run (each
    flag's default is its environment variable, through [envOrDefault],
    [envBool] and [envDuration]). *)
Record Flags := {
  flagWorkspace : string;
  flagGoplsPath : string;
  flagLogFile : string;
  flagLogLevel : string;
  flagLogJSON : bool;
  flagRPCTimeout : Z;
  flagShutdownTimeout : Z
}.

Inductive Signal := Interrupt | SIGTERM.

Inductive Context :=
| Background                                             (* context.Background() *)
| NotifyCtx (parent : Context) (signals : list Signal).  (* signal.NotifyContext *)

(** The [serviceRunner] interface.  [S] is the state of the object behind
    it; [Start] blocks in the program and is seen here by its result. *)
Class serviceRunner (S : Type) := {
  Start : Context -> State S (option error);
  Close : Context -> State S unit
}.

Section Controller.
Context {U : Unicode} {S : Type} {R : serviceRunner S}.

(** What lies outside the file: [server.DefaultConfig], the file system
    as [os.Stat] and [exec.LookPath] see it, and the two package
    variables [newServiceFn] and [notifyContextF]. *)
Record Env := {
  DefaultConfig : Config;
  os_Stat : string -> FileInfo + error;
  exec_LookPath : string -> string + error;
  newServiceFn : Config -> S + error;
  notifyContextF : Context -> list Signal -> Context
}.

Variable env : Env.

Definition ensureDirectory (path : string) : option error :=
  match os_Stat env path with
  | inr err => Some (Errorf_w "workspace dir %q: %w" [OpString path] err)
  | inl info =>
      if negb (IsDir info)
      then Some (Errorf "workspace dir %q is not a directory" [OpString path])
      else None
  end.

Definition resolveExecutable (path : string) : string + error :=
  match exec_LookPath env path with
  | inr err => inr (Errorf_w "resolve gopls binary %q: %w" [OpString path] err)
  | inl resolved =>
      match os_Stat env resolved with
      | inr statErr =>
          inr (Errorf_w "stat gopls binary %q: %w" [OpString resolved] statErr)
      | inl info =>
          if IsDir info
          then inr (Errorf "gopls binary %q is a directory" [OpString resolved])
          else if (Z.land (Mode info) 73 =? 0)%Z   (* 0o111 *)
          then inr (Errorf "gopls binary %q is not executable" [OpString resolved])
          else inl resolved
      end
  end.

Definition validateTimeouts (cfg : Config) : option error :=
  if (RPCTimeout cfg <=? 0)%Z
  then Some (Errorf "rpc-timeout must be positive, got %s" [OpDuration (RPCTimeout cfg)])
  else if (ShutdownTimeout cfg <=? 0)%Z
  then Some (Errorf "shutdown-timeout must be positive, got %s"
                    [OpDuration (ShutdownTimeout cfg)])
  else None.

Definition set_WorkspaceDir (v : string) (c : Config) : Config :=
  {| WorkspaceDir := v; GoplsPath := GoplsPath c; LogFile := LogFile c;
     LogJSON := LogJSON c; LogLevel := LogLevel c; RPCTimeout := RPCTimeout c;
     ShutdownTimeout := ShutdownTimeout c |}.

Definition set_GoplsPath (v : string) (c : Config) : Config :=
  {| WorkspaceDir := WorkspaceDir c; GoplsPath := v; LogFile := LogFile c;
     LogJSON := LogJSON c; LogLevel := LogLevel c; RPCTimeout := RPCTimeout c;
     ShutdownTimeout := ShutdownTimeout c |}.

Definition buildConfigFromFlags (f : Flags) : Config + error :=
  let cfg := DefaultConfig env in
  match (if String.eqb (flagWorkspace f) "" then inl cfg
         else match ensureDirectory (flagWorkspace f) with
              | Some err => inr err
              | None => inl (set_WorkspaceDir (flagWorkspace f) cfg)
              end) with
  | inr err => inr err
  | inl cfg =>
  match (if String.eqb (flagGoplsPath f) "" then inl cfg
         else match resolveExecutable (flagGoplsPath f) with
              | inr err => inr err
              | inl resolved => inl (set_GoplsPath resolved cfg)
              end) with
  | inr err => inr err
  | inl cfg =>
  let logFile := if String.eqb (flagLogFile f) "" then LogFile cfg else flagLogFile f in
  match parseLogLevel (flagLogLevel f) with
  | (_, Some err) => inr (Errorf_w "parse log level: %w" [] err)
  | (level, None) =>
      let cfg := {| WorkspaceDir := WorkspaceDir cfg; GoplsPath := GoplsPath cfg;
                    LogFile := logFile; LogJSON := flagLogJSON f;
                    LogLevel := level; RPCTimeout := flagRPCTimeout f;
                    ShutdownTimeout := flagShutdownTimeout f |} in
      match validateTimeouts cfg with
      | Some err => inr err
      | None => inl cfg
      end
  end end end.

(** The calls [run] makes on its collaborators, in the order made. *)
Inductive Event :=
| EvNewService (cfg : Config)
| EvNotifyContext (parent : Context) (signals : list Signal)
| EvStart (ctx : Context)
| EvStop
| EvClose (ctx : Context)
| EvPrintln (line : string).

(** The process as [run] sees it: the service object once constructed
    ([None] before) and the calls made so far. *)
Record World := { svc : option S; trace : list Event }.

Definition log (e : Event) : State World unit :=
  fun w => (tt, {| svc := svc w; trace := trace w ++ [e] |}).

Definition call_newServiceFn (cfg : Config) : State World (option error) :=
  let* _ := log (EvNewService cfg) in
  fun w =>
    match newServiceFn env cfg with
    | inl s => (None, {| svc := Some s; trace := trace w |})
    | inr err => (Some err, w)
    end.

(** A method call on the service: the object's own transition, run on
    the state held in the world. *)
Definition on_service {A} (dflt : A) (m : State S A) : State World A :=
  fun w =>
    match svc w with
    | Some s => let (a, s') := m s in (a, {| svc := Some s'; trace := trace w |})
    | None => (dflt, w)
    end.

Definition svc_Start (ctx : Context) : State World (option error) :=
  let* _ := log (EvStart ctx) in on_service None (Start ctx).

Definition svc_Close (ctx : Context) : State World unit :=
  let* _ := log (EvClose ctx) in on_service tt (Close ctx).

Definition call_notifyContextF (parent : Context) (sigs : list Signal)
  : State World Context :=
  let* _ := log (EvNotifyContext parent sigs) in
  ret (notifyContextF env parent sigs).

Definition stop : State World unit := log EvStop.

Definition fmt_Println (line : string) : State World unit := log (EvPrintln line).

Definition run (f : Flags) : State World (option error) :=
  match buildConfigFromFlags f with
  | inr err => ret (Some err)
  | inl cfg =>
      let* err := call_newServiceFn cfg in
      match err with
      | Some err => ret (Some (Errorf_w "create service: %w" [] err))
      | None =>
          defer (svc_Close Background)
            (let* ctx := call_notifyContextF Background [Interrupt; SIGTERM] in
             defer stop
               (let* err := svc_Start ctx in
                match err with
                | Some err => ret (Some (Errorf_w "service error: %w" [] err))
                | None =>
                    let* _ := fmt_Println "mcp-gopls shutdown complete" in
                    ret None
                end))
      end
  end.

(** The process before [run]: no service, nothing called. *)
Definition initial : World := {| svc := None; trace := [] |}.

End Controller.

Arguments Env S : clear implicits.
Arguments World S : clear implicits.

(** The [stubService] of [main_test.go]: [Start] keeps the context and
    returns [startErr], or nil once the context is cancelled; [Close] sets
    [closeCalled]. *)
Record stubService := {
  startCtx : option Context;
  startErr : option error;
  closeCalled : bool
}.

Definition newStubService : stubService :=
  {| startCtx := None; startErr := None; closeCalled := false |}.

#[export] Instance stub_runner : serviceRunner stubService := {
  Start ctx := fun s =>
    (startErr s,
     {| startCtx := Some ctx; startErr := startErr s; closeCalled := closeCalled s |});
  Close ctx := fun s =>
    (tt, {| startCtx := startCtx s; startErr := startErr s; closeCalled := true |})
}.

End Main.

(* ===================================================================== *)
(** ** pkg/tools: progress notifications, test and coverage tools *)
(* ===================================================================== *)

Module Tools.
Import GoStrings GoErrors.

(** Modelled from the spec: the declaration of [commandResult] is not among
    the sources; the spec describes a Command Result as the captured
    standard output, standard error and exit status of one external
    process invocation. *)
Record commandResult := {
  Stdout : string;
  Stderr : string;
  ExitCode : Z
}.

(** The zero value [commandResult{}]. *)
Definition commandResult_zero : commandResult :=
  {| Stdout := ""; Stderr := ""; ExitCode := 0 |}.

(** Values of Go's [any] that travel through requests, payloads and
    notification parameters.  [VNil] is the nil interface. *)
Inductive any : Type :=
| VNil
| VString (s : string)
| VNumber (n : Z)
| VBool (b : bool)
| VCommand (r : commandResult).

Definition is_nil (v : any) : bool :=
  match v with VNil => true | _ => false end.

(** [mcp.ProgressToken] is an alias of [any]. *)
Definition ProgressToken : Type := any.

Inductive Context :=
| Background              (* context.Background() *)
| RequestCtx (id : nat).  (* the context of one inbound request *)

(** [mcp.Meta] and [mcp.CallToolRequest], as far as the handlers read them. *)
Record Meta := { meta_ProgressToken : ProgressToken }.

Record CallToolRequest := {
  Params_Meta : option Meta;
  Params_Arguments : option (gmap string any)
}.

Definition GetArguments (r : CallToolRequest) : option (gmap string any) :=
  Params_Arguments r.

(** [*mcp.CallToolResult]: either the JSON rendering of a payload
    ([mcp.NewToolResultJSON]) or an error result carrying only a text
    ([mcp.NewToolResultErrorFromErr], [IsError] set). *)
Inductive CallToolResult :=
| ToolResultJSON (data : gmap string any)
| ToolResultError (text : string) (err : option error).

Definition IsError (r : CallToolResult) : bool :=
  match r with ToolResultJSON _ => false | ToolResultError _ _ => true end.

Definition NewToolResultErrorFromErr (text : string) (err : option error)
  : CallToolResult := ToolResultError text err.

(** Payloads hold strings and command results only, which [json.Marshal]
    always encodes: the error component is nil. *)
Definition NewToolResultJSON (data : gmap string any)
  : option CallToolResult * option error := (Some (ToolResultJSON data), None).

(** One directory entry as [os.ReadDir] returns it. *)
Record DirEntry := { Name : string; IsDir : bool }.

(** A path of the file system is a file or a directory with its entries. *)
Inductive node :=
| File
| Dir (entries : list DirEntry).

(** The calls made on the outside, in the order made. *)
Inductive Event :=
| EvCreateTemp (dir pattern : string)
| EvRemove (name : string)
| EvRunCommand (name : string) (args : list string)
| EvNotify (srv : nat) (ctx : Context) (method : string) (params : gmap string any).

Record World := { files : gmap string node; trace : list Event }.

Definition log (e : Event) : State World unit :=
  fun w => (tt, {| files := files w; trace := trace w ++ [e] |}).

(** The payload of [protocol.NewProgressNotification], with the three
    fields [sendProgressNotification] reads ([ProgressToken_] is its
    [ProgressToken] field). *)
Record ProgressNotification := {
  ProgressToken_ : ProgressToken;
  Progress : Z;
  Message : string
}.

(** What lies outside the two files: the [protocol] package's constructor
    and method name, whether the SDK's send fails, the name
    [os.CreateTemp] draws, and what an external command returns and does
    to the file system (through [runCommand], which is declared in another
    file of the package). *)
Record Env := {
  NewProgressNotification : ProgressToken -> Z -> string -> ProgressNotification + error;
  ProgressMethod : string;
  send_error : World -> nat -> Context -> string -> gmap string any -> option error;
  temp_name : World -> string -> string -> string + error;
  exec_Command : World -> string -> string -> list string
                 -> commandResult * option error * gmap string node
}.

(** [mcp.Tool]: name, description, and the input schema as its properties
    (each a small JSON object) and the names of the required ones. *)
Record Tool := {
  Tool_Name : string;
  Tool_Description : string;
  Properties : gmap string (gmap string any);
  Required_ : list string
}.

Definition ToolHandlerFunc : Type :=
  option Context -> CallToolRequest -> State World (option CallToolResult * option error).

Record ServerTool := { tool : Tool; handler : ToolHandlerFunc }.

(** [*server.MCPServer]: the identity of the server object and its table
    of registered tools, keyed by tool name. *)
Record MCPServer := { srv_id : nat; tools : gmap string ServerTool }.

(** The receiver [LSPTools], as far as the two files read it. *)
Record LSPTools := { workspaceDir : string }.

(** *** The SDK's tool builders *)

Definition PropertyOption : Type := gmap string any -> gmap string any.
Definition ToolOption : Type := Tool -> Tool.

Definition Description (desc : string) : PropertyOption :=
  fun schema => <["description" := VString desc]> schema.

Definition Required : PropertyOption :=
  fun schema => <["required" := VBool true]> schema.

Definition WithDescription (desc : string) : ToolOption :=
  fun t => {| Tool_Name := Tool_Name t; Tool_Description := desc;
              Properties := Properties t; Required_ := Required_ t |}.

(** [mcp.WithString]: a property of JSON type string; a [required] mark
    set by an option moves to the tool's list of required properties. *)
Definition WithString (name : string) (opts : list PropertyOption) : ToolOption :=
  fun t =>
    let schema := fold_left (fun sch o => o sch) opts {["type" := VString "string"]} in
    match schema !! "required" with
    | Some (VBool true) =>
        {| Tool_Name := Tool_Name t; Tool_Description := Tool_Description t;
           Properties := <[name := delete "required" schema]> (Properties t);
           Required_ := Required_ t ++ [name] |}
    | _ =>
        {| Tool_Name := Tool_Name t; Tool_Description := Tool_Description t;
           Properties := <[name := schema]> (Properties t);
           Required_ := Required_ t |}
    end.

Definition NewTool (name : string) (opts : list ToolOption) : Tool :=
  fold_left (fun t o => o t) opts
    {| Tool_Name := name; Tool_Description := ""; Properties := ∅; Required_ := [] |}.

(** [s.AddTool]: the tool table is keyed by name. *)
Definition AddTool (tl : Tool) (h : ToolHandlerFunc) (s : MCPServer) : MCPServer :=
  {| srv_id := srv_id s;
     tools := <[Tool_Name tl := {| tool := tl; handler := h |}]> (tools s) |}.

Section Impl.
Context {U : Unicode}.
Variable env : Env.

(** *** The operating system and the SDK, as the code calls them *)

Definition read {A} (f : World -> A) : State World A := fun w => (f w, w).

(** [os.ReadDir]: the entries of a directory, or an error when the path
    is empty, missing or not a directory. *)
Definition os_ReadDir (fs : gmap string node) (dir : string)
  : list DirEntry + error :=
  if String.eqb dir "" then inr (Errno "no such file or directory")
  else
    match fs !! dir with
    | Some (Dir entries) => inl entries
    | Some File => inr (Errno "not a directory")
    | None => inr (Errno "no such file or directory")
    end.

(** [os.CreateTemp]: draws a name and creates the file exclusively, so a
    name already taken is never returned. *)
Definition os_CreateTemp (dir pattern : string) : State World (string + error) :=
  let* _ := log (EvCreateTemp dir pattern) in
  fun w =>
    match temp_name env w dir pattern with
    | inr err => (inr err, w)
    | inl name =>
        match files w !! name with
        | Some _ => (inr (Errno "file exists"), w)
        | None => (inl name, {| files := <[name := File]> (files w); trace := trace w |})
        end
    end.

(** [os.Remove]: removes a file or an empty directory; the error it
    returns otherwise is what the caller gets. *)
Definition os_Remove (name : string) : State World (option error) :=
  let* _ := log (EvRemove name) in
  fun w =>
    match files w !! name with
    | Some File | Some (Dir []) =>
        (None, {| files := delete name (files w); trace := trace w |})
    | Some (Dir (_ :: _)) => (Some (Errno "directory not empty"), w)
    | None => (Some (Errno "no such file or directory"), w)
    end.

(** [tempFile.Close()]: the descriptor is released, the file stays. *)
Definition file_Close (name : string) : State World (option error) := ret None.

(** [srv.SendNotificationToClient]. *)
Definition SendNotificationToClient (srv : MCPServer) (ctx : Context)
    (method : string) (params : gmap string any) : State World (option error) :=
  fun w =>
    (send_error env w (srv_id srv) ctx method params,
     {| files := files w;
        trace := trace w ++ [EvNotify (srv_id srv) ctx method params] |}).

(** [t.runCommand(ctx, srv, token, name, args...)] runs the external
    program in the workspace.  Its body is in another file: the call is
    recorded and its result and its effect on the files are the
    environment's.  [EvRunCommand] stands for the whole call: the
    specification has the runner send a notification before and after the
    program runs, and what it sends there is not listed in the trace.  The
    [EvNotify] events of a trace are therefore the notifications that
    notifications.go and testing.go send themselves, and nothing is stated
    below of the others. *)
Definition runCommand (t : LSPTools) (ctx : option Context) (srv : option MCPServer)
    (token : ProgressToken) (name : string) (args : list string)
  : State World (commandResult * option error) :=
  fun w =>
    let '(result, err, fs) := exec_Command env w (workspaceDir t) name args in
    ((result, err), {| files := fs; trace := trace w ++ [EvRunCommand name args] |}).

(** *** notifications.go *)

Definition getProgressToken (meta : option Meta) : ProgressToken :=
  match meta with
  | None => VNil
  | Some m => meta_ProgressToken m
  end.

Definition sendProgressNotification (ctx : option Context) (srv : option MCPServer)
    (token : ProgressToken) (message : string) : State World unit :=
  match srv with
  | None => ret tt
  | Some srv =>
      if is_nil token then ret tt
      else
        let ctx := match ctx with None => Background | Some c => c end in
        match NewProgressNotification env token 0 message with
        | inr _ => ret tt
        | inl payload =>
            let params : gmap string any :=
              <["progress" := VNumber (Progress payload)]>
                (<["progressToken" := ProgressToken_ payload]> ∅) in
            let params :=
              if negb (String.eqb (Message payload) "")
              then <["message" := VString (Message payload)]> params
              else params in
            let* _ := SendNotificationToClient srv ctx (ProgressMethod env) params in
            ret tt
        end
  end.

(** *** testing.go *)

Definition isExitSuccess (err : error) : bool := As_ExitError err.

(** The guard [err != nil && !isExitSuccess(err)]. *)
Definition failed_to_run (err : option error) : bool :=
  match err with
  | Some e => negb (isExitSuccess e)
  | None => false
  end.

Fixpoint hasGoEntry (entries : list DirEntry) : bool :=
  match entries with
  | [] => false
  | entry :: rest =>
      if IsDir entry then hasGoEntry rest
      else if HasSuffix (Name entry) ".go" then true
      else hasGoEntry rest
  end.

Definition dirHasGoFiles (fs : gmap string node) (dir : string) : bool * option error :=
  match os_ReadDir fs dir with
  | inr err => (false, Some err)
  | inl entries => (hasGoEntry entries, None)
  end.

Definition normalizePackageTarget (fs : gmap string node)
    (workspaceDir requested : string) : string :=
  let target := TrimSpace requested in
  if String.eqb target "" then "./..."
  else if String.eqb workspaceDir "" then target
  else if String.eqb target "." || String.eqb target "./" then
    match dirHasGoFiles fs workspaceDir with
    | (hasGoFiles, None) => if negb hasGoFiles then "./..." else target
    | (_, Some _) => target
    end
  else target.

Record coverageCommandResult := {
  test : commandResult;
  cover : option commandResult
}.

Definition runCoverageByFunction (t : LSPTools) (ctx : option Context)
    (srv : option MCPServer) (token : ProgressToken) (target : string)
  : State World (coverageCommandResult * option error) :=
  let* tempFile := os_CreateTemp "" "coverage-*.out" in
  match tempFile with
  | inr err => ret ({| test := commandResult_zero; cover := None |}, Some err)
  | inl tempFile =>
      defer (let* _ := os_Remove tempFile in ret tt)
        (let* _ := file_Close tempFile in
         let* (testResult, err) :=
           runCommand t ctx srv token "go" ["test"; target; "-coverprofile"; tempFile] in
         if failed_to_run err
         then ret ({| test := testResult; cover := None |}, err)
         else
           let* (coverResult, coverErr) :=
             runCommand t ctx srv token "go" ["tool"; "cover"; "-func"; tempFile] in
           if failed_to_run coverErr
           then ret ({| test := testResult; cover := None |}, coverErr)
           else ret ({| test := testResult; cover := Some coverResult |}, None))
  end.

(** The [.(string)] type assertion on an argument. *)
Definition string_arg (args : gmap string any) (key : string) : option string :=
  match args !! key with
  | Some (VString s) => Some s
  | _ => None
  end.

(** The handler [registerCoverageAnalysis] registers.  An early
    [return] of the Go body is the [inr] of the inner computation. *)
Definition coverageHandler (t : LSPTools) (s : MCPServer) : ToolHandlerFunc :=
  fun ctx request =>
    let token := getProgressToken (Params_Meta request) in
    let args := GetArguments request in
    let packagePath :=
      match args with
      | Some a => default "" (string_arg a "path")
      | None => ""
      end in
    let outputFormat :=
      match args with
      | Some a => default "" (string_arg a "output_format")
      | None => ""
      end in
    let* packagePath :=
      read (fun w => normalizePackageTarget (files w) (workspaceDir t) packagePath) in
    let outputFormat := if String.eqb outputFormat "" then "summary" else outputFormat in
    let payload : gmap string any :=
      <["mode" := VString outputFormat]> (<["target" := VString packagePath]> ∅) in
    let* r :=
      (if String.eqb outputFormat "func" then
         let* _ := sendProgressNotification ctx (Some s) token
                     ("Running go test with coverage for " ++ packagePath) in
         let* (result, err) := runCoverageByFunction t ctx (Some s) token packagePath in
         match err with
         | Some _ => ret (inr (NewToolResultErrorFromErr "coverage analysis failed" err))
         | None =>
             let payload := <["test" := VCommand (test result)]> payload in
             let payload :=
               match cover result with
               | Some c => <["cover" := VCommand c]> payload
               | None => payload
               end in
             let* _ := sendProgressNotification ctx (Some s) token
                         ("Coverage analysis finished for " ++ packagePath) in
             ret (inl payload)
         end
       else
         let* _ := sendProgressNotification ctx (Some s) token
                     ("Running go test -cover for " ++ packagePath) in
         let* (testResult, err) :=
           runCommand t ctx (Some s) token "go" ["test"; packagePath; "-cover"] in
         if failed_to_run err
         then ret (inr (NewToolResultErrorFromErr "go test failed" err))
         else ret (inl (<["test" := VCommand testResult]> payload))) in
    match r with
    | inr early => ret (Some early, None)
    | inl payload =>
        match NewToolResultJSON payload with
        | (_, Some err) => ret (None, Some err)
        | (result, None) => ret (result, None)
        end
    end.

Definition registerCoverageAnalysis (t : LSPTools) (s : MCPServer) : MCPServer :=
  let coverageTool :=
    NewTool "analyze_coverage"
      [ WithDescription "Analyze test coverage for Go code";
        WithString "path"
          [Description "Path to the package or directory to analyze. Defaults to ./..."];
        WithString "output_format"
          [Description
             "Format of the coverage output: 'summary' (default) or 'func' (per function)"]
      ] in
  AddTool coverageTool (coverageHandler t s) s.

(** The handler [registerGoTest] registers. *)
Definition goTestHandler (t : LSPTools) (s : MCPServer) : ToolHandlerFunc :=
  fun ctx request =>
    let token := getProgressToken (Params_Meta request) in
    let target :=
      match GetArguments request with
      | Some args => default "./..." (string_arg args "path")
      | None => "./..."
      end in
    let* target :=
      read (fun w => normalizePackageTarget (files w) (workspaceDir t) target) in
    let* _ := sendProgressNotification ctx (Some s) token
                ("Running go test for " ++ target) in
    let* (result, err) := runCommand t ctx (Some s) token "go" ["test"; target] in
    if failed_to_run err
    then ret (Some (NewToolResultErrorFromErr "go test failed" err), None)
    else
      let payload : gmap string any :=
        <["result" := VCommand result]> (<["target" := VString target]> ∅) in
      match NewToolResultJSON payload with
      | (_, Some err) => ret (None, Some err)
      | (toolResult, None) => ret (toolResult, None)
      end.

Definition registerGoTest (t : LSPTools) (s : MCPServer) : MCPServer :=
  let runTool :=
    NewTool "run_go_test"
      [ WithDescription "Run go test for a package or pattern";
        WithString "path" [Description "Package path or pattern. Defaults to ./..."]
      ] in
  AddTool runTool (goTestHandler t s) s.

Definition registerTestingTools (t : LSPTools) (s : MCPServer) : MCPServer :=
  registerGoTest t (registerCoverageAnalysis t s).

End Impl.

End Tools.

(* ===================================================================== *)
(** ** Reference notions the properties are stated with *)
(* ===================================================================== *)

Module Reference.
Import GoStrings GoErrors.

(** Case-insensitive comparison of a byte string with a lower-case word,
    told from the alphabet itself: a byte of the input matches a byte of
    the word when they are equal or when they are the upper- and
    lower-case form of the same letter. *)
Definition upperLetters : string := "ABCDEFGHIJKLMNOPQRSTUVWXYZ".
Definition lowerLetters : string := "abcdefghijklmnopqrstuvwxyz".

Definition letterPairs : list (ascii * ascii) :=
  combine (list_ascii_of_string upperLetters) (list_ascii_of_string lowerLetters).

Definition sameLetter (c d : ascii) : bool :=
  Ascii.eqb c d
  || existsb (fun p => Ascii.eqb c (fst p) && Ascii.eqb d (snd p)) letterPairs.

Fixpoint equalFold (s w : string) : bool :=
  match s, w with
  | EmptyString, EmptyString => true
  | String c s', String d w' => sameLetter c d && equalFold s' w'
  | _, _ => false
  end.

(** Every byte value. *)
Definition allBytes : list ascii := map ascii_of_nat (seq 0 256).

(** The level names of the specification, and the names the code takes. *)
Definition specLevelNames : list string := ["debug"; "info"; "warn"; "error"].
Definition codeLevelNames : list string := ["debug"; "info"; "warn"; "warning"; "error"].

(** The level each accepted name stands for. *)
Definition levelTable : list (string * Main.Level) :=
  [ ("debug", Main.LevelDebug); ("info", Main.LevelInfo); ("warn", Main.LevelWarn);
    ("warning", Main.LevelWarn); ("error", Main.LevelError) ].

End Reference.

Module ToolsReference.
Import GoStrings GoErrors Tools.

(** A Go source file directly in a directory: an entry that is not itself
    a directory and whose name ends in ".go". *)
Definition isGoFile (e : DirEntry) : Prop :=
  IsDir e = false /\ exists stem, Name e = stem ++ ".go".

(** Surrounding ASCII white space, told from the bytes. *)
Fixpoint allSpace (s : string) : bool :=
  match s with
  | EmptyString => true
  | String c s' => asciiSpace c && allSpace s'
  end.

Definition headSpace (s : string) : bool :=
  match s with
  | EmptyString => false
  | String c _ => asciiSpace c
  end.

Fixpoint lastSpace (s : string) : bool :=
  match s with
  | EmptyString => false
  | String c EmptyString => asciiSpace c
  | String _ s' => lastSpace s'
  end.

(** [t] is [s] without its leading and trailing white space. *)
Definition trimmed (s t : string) : Prop :=
  exists pre post,
    s = pre ++ t ++ post
    /\ allSpace pre = true /\ allSpace post = true
    /\ headSpace t = false /\ lastSpace t = false.

(** Whether a file (not a directory) is at a path. *)
Definition fileExists (fs : gmap string node) (name : string) : bool :=
  match fs !! name with
  | Some File => true
  | _ => false
  end.

End ToolsReference.

Module PipelineReference.
Import GoStrings GoErrors Tools.

(** The argument lists of the two commands of the per-function pipeline. *)
Definition testArgs (target tempFile : string) : list string :=
  ["test"; target; "-coverprofile"; tempFile].

Definition reportArgs (tempFile : string) : list string :=
  ["tool"; "cover"; "-func"; tempFile].

(** A command invocation completed: it returned no error, or an error
    that is (or wraps) an exit-status error. *)
Definition completed (err : option error) : Prop :=
  err = None \/ exists e, err = Some e /\ As_ExitError e = true.

(** The calls made between two worlds. *)
Definition eventsSince (w w' : World) : list Event :=
  drop (length (trace w)) (trace w').

End PipelineReference.

Module NotifyReference.
Import GoStrings GoErrors Tools.

(** Modelled from the spec: [protocol.NewProgressNotification] is declared
    outside the sources.  The specification says each event carries the
    correlation token, a fixed progress numerator and the message text, so
    a payload the constructor returns records the three values it was
    given. *)
Definition recordsArguments (env : Env) : Prop :=
  forall token progress message n,
    NewProgressNotification env token progress message = inl n ->
    n = {| ProgressToken_ := token; Progress := progress; Message := message |}.

(** The same environment with another answer from the SDK's send. *)
Definition withSendError
    (f : World -> nat -> Context -> string -> gmap string any -> option error)
    (env : Env) : Env :=
  {| NewProgressNotification := NewProgressNotification env;
     ProgressMethod := ProgressMethod env;
     send_error := f;
     temp_name := temp_name env;
     exec_Command := exec_Command env |}.

End NotifyReference.

Module HandlerReference.
Import GoStrings GoErrors Tools.

(** The string argument "path" of a request, or [dflt]. *)
Definition requestedPath (dflt : string) (request : CallToolRequest) : string :=
  match GetArguments request with
  | Some args => default dflt (string_arg args "path")
  | None => dflt
  end.

(** The mode [analyze_coverage] works in: the string argument
    "output_format", or "summary" when it is missing or empty. *)
Definition requestedMode (request : CallToolRequest) : string :=
  let format :=
    match GetArguments request with
    | Some args => default "" (string_arg args "output_format")
    | None => ""
    end in
  if String.eqb format "" then "summary" else format.

(** A tool result carries a value when it is the JSON rendering of a
    payload that has the value in one of its fields. *)
Definition carries (r : CallToolResult) (v : any) : Prop :=
  match r with
  | ToolResultJSON data => exists key, data !! key = Some v
  | ToolResultError _ _ => False
  end.

End HandlerReference.

(* ===================================================================== *)
(** ** Concrete settings: the tests of the repository and small workspaces *)
(* ===================================================================== *)

Module MainScenario.
Import GoStrings GoErrors Main.

(** The setting of [TestRunPropagatesStartError] and
    [TestRunHandlesSignalShutdown]: no flags given, a stub service from the
    factory, [signal.NotifyContext] replaced by a plain cancellable
    context. *)
Definition defaultConfig : Config :=
  {| WorkspaceDir := ""; GoplsPath := "gopls"; LogFile := ""; LogJSON := false;
     LogLevel := LevelInfo; RPCTimeout := 45000000000; ShutdownTimeout := 15000000000 |}.

Definition noFlags : Flags :=
  {| flagWorkspace := ""; flagGoplsPath := ""; flagLogFile := "";
     flagLogLevel := "info"; flagLogJSON := false;
     flagRPCTimeout := 45000000000; flagShutdownTimeout := 15000000000 |}.

Definition stubEnv (service : stubService) : Env stubService :=
  {| DefaultConfig := defaultConfig;
     os_Stat := fun _ => inr (Errno "no such file or directory");
     exec_LookPath := fun _ => inr (Errno "executable file not found in $PATH");
     newServiceFn := fun _ => inl service;
     notifyContextF := NotifyCtx |}.

Definition failingStub : stubService :=
  {| startCtx := None; startErr := Some (errors_New "boom"); closeCalled := false |}.

End MainScenario.

Module ToolsScenario.
Import GoStrings GoErrors Tools.

(** A workspace laid out in sub-directories only, and one with a source
    file at its root. *)
Definition nestedWorkspace : gmap string node :=
  {[ "/ws" := Dir [ {| Name := "cmd"; IsDir := true |};
                    {| Name := "go.mod"; IsDir := false |};
                    {| Name := "pkg.go"; IsDir := true |} ] ]}.

Definition flatWorkspace : gmap string node :=
  {[ "/ws" := Dir [ {| Name := "go.mod"; IsDir := false |};
                    {| Name := "main.go"; IsDir := false |} ] ]}.

End ToolsScenario.

Module NotifyScenario.
Import GoStrings GoErrors Tools.

(** A protocol package whose constructor stores what it is given, an SDK
    whose send fails (no client is listening), and no external command. *)
Definition deafClient : Env :=
  {| NewProgressNotification := fun token progress message =>
       inl {| ProgressToken_ := token; Progress := progress; Message := message |};
     ProgressMethod := "notifications/progress";
     send_error := fun _ _ _ _ _ => Some (Errno "notification channel full or blocked");
     temp_name := fun _ _ _ => inr (Errno "no temporary directory");
     exec_Command := fun w _ _ _ =>
       (commandResult_zero, Some (Errno "executable file not found in $PATH"), files w) |}.

Definition server7 : MCPServer := {| srv_id := 7; tools := ∅ |}.

Definition emptyWorld : World := {| files := ∅; trace := [] |}.

End NotifyScenario.

Module HandlerScenario.
Import GoStrings GoErrors Tools NotifyScenario.

Definition failingTests : commandResult :=
  {| Stdout := "--- FAIL: TestParse"; Stderr := ""; ExitCode := 1 |}.

Definition coverageReport : commandResult :=
  {| Stdout := "total: (statements) 61.5%"; Stderr := ""; ExitCode := 0 |}.

(** [go test] runs and reports failing tests; [go tool cover] answers as
    [report] says. *)
Definition goWithFailingTests (report : commandResult * option error) : Env :=
  {| NewProgressNotification := fun token progress message =>
       inl {| ProgressToken_ := token; Progress := progress; Message := message |};
     ProgressMethod := "notifications/progress";
     send_error := fun _ _ _ _ _ => None;
     temp_name := fun _ _ _ => inl "/tmp/coverage-1.out";
     exec_Command := fun w _ _ args =>
       match args with
       | "test" :: _ => (failingTests, Some (ExitError 1), files w)
       | _ => (fst report, snd report, files w)
       end |}.

(** The report command cannot be started. *)
Definition cannotStart : error := Errno "fork/exec: resource temporarily unavailable".

Definition reportCannotStart : Env :=
  goWithFailingTests (commandResult_zero, Some cannotStart).

Definition reportWorks : Env := goWithFailingTests (coverageReport, None).

(** The [go] binary is missing altogether. *)
Definition goMissing : Env :=
  {| NewProgressNotification := NewProgressNotification reportWorks;
     ProgressMethod := ProgressMethod reportWorks;
     send_error := send_error reportWorks;
     temp_name := temp_name reportWorks;
     exec_Command := fun w _ _ _ =>
       (commandResult_zero, Some (Errno "executable file not found in $PATH"), files w) |}.

Definition tools0 : LSPTools := {| workspaceDir := "/ws" |}.

Definition funcRequest : CallToolRequest :=
  {| Params_Meta := Some {| meta_ProgressToken := VString "tok-1" |};
     Params_Arguments := Some {[ "output_format" := VString "func" ]} |}.

Definition plainRequest : CallToolRequest :=
  {| Params_Meta := None; Params_Arguments := None |}.

Definition flatWorld : World :=
  {| files := ToolsScenario.flatWorkspace; trace := [] |}.

(** The world after [run_go_test], and after [analyze_coverage] in simple
    mode, on a request without token. *)
Definition afterGoTest : World :=
  {| files := ToolsScenario.flatWorkspace;
     trace := [EvRunCommand "go" ["test"; "./..."]] |}.

Definition afterGoTestCover : World :=
  {| files := ToolsScenario.flatWorkspace;
     trace := [EvRunCommand "go" ["test"; "./..."; "-cover"]] |}.

End HandlerScenario.

(* ===================================================================== *)
(** ** cmd/mcp-gopls: flag defaults from the environment *)
(* ===================================================================== *)

Module MainFlags.
Import GoStrings GoErrors Main.

(** [os.Getenv]: the value of the variable, empty when it is not set. *)
Definition os_Getenv (environ : gmap string string) (key : string) : string :=
  default "" (environ !! key).

(** [time.Second], in nanoseconds. *)
Definition Second : Z := 1000000000.

Section Helpers.
Context {U : Unicode}.

(** The process environment, and [time.ParseDuration] of the standard
    library. *)
Variable environ : gmap string string.
Variable time_ParseDuration : string -> Z + error.

Definition envOrDefault (key fallback : string) : string :=
  let value := os_Getenv environ key in
  if negb (String.eqb value "") then value else fallback.

Definition envBool (key : string) : bool :=
  let value := os_Getenv environ key in
  let value := ToLower value in
  String.eqb value "1" || String.eqb value "true" || String.eqb value "yes".

Definition envDuration (key : string) (fallback : Z) : Z :=
  let value := os_Getenv environ key in
  if negb (String.eqb value "") then
    match time_ParseDuration value with
    | inl d => d
    | inr _ => fallback
    end
  else fallback.

(** The values the flags of [buildConfigFromFlags] have when the command
    line sets none of them: their declared defaults. *)
Definition flagDefaults : Flags :=
  {| flagWorkspace := envOrDefault "MCP_GOPLS_WORKSPACE" "";
     flagGoplsPath := envOrDefault "MCP_GOPLS_BIN" "";
     flagLogFile := envOrDefault "MCP_GOPLS_LOG_FILE" "";
     flagLogLevel := envOrDefault "MCP_GOPLS_LOG_LEVEL" "info";
     flagLogJSON := envBool "MCP_GOPLS_LOG_JSON";
     flagRPCTimeout := envDuration "MCP_GOPLS_RPC_TIMEOUT" (45 * Second);
     flagShutdownTimeout := envDuration "MCP_GOPLS_SHUTDOWN_TIMEOUT" (15 * Second) |}.

End Helpers.

(** The seven variables the flags read. *)
Definition flagVariables : list string :=
  [ "MCP_GOPLS_WORKSPACE"; "MCP_GOPLS_BIN"; "MCP_GOPLS_LOG_FILE";
    "MCP_GOPLS_LOG_LEVEL"; "MCP_GOPLS_LOG_JSON"; "MCP_GOPLS_RPC_TIMEOUT";
    "MCP_GOPLS_SHUTDOWN_TIMEOUT" ].

(** The calls of [run] made between two worlds, and the kinds of call. *)
Definition callsSince {S : Type} (w w' : World S) : list Event :=
  drop (length (trace w)) (trace w').

Definition isStart (e : Event) : bool :=
  match e with EvStart _ => true | _ => false end.

Definition isClose (e : Event) : bool :=
  match e with EvClose _ => true | _ => false end.

Definition isNewService (e : Event) : bool :=
  match e with EvNewService _ => true | _ => false end.

(** The owner, group and other execute bits of a file mode ([0o100],
    [0o010], [0o001]). *)
Definition anyExecBit (mode : Z) : bool :=
  Z.testbit mode 6 || Z.testbit mode 3 || Z.testbit mode 0.

(** A stub of [time.ParseDuration] that knows two spellings. *)
Definition parseTwoDurations (s : string) : Z + error :=
  if String.eqb s "2s" then inl (2 * Second)%Z
  else if String.eqb s "150ms" then inl 150000000%Z
  else inr (Errno "time: invalid duration").

(** A factory that fails, as in [TestRunReturnsFactoryError]. *)
Definition failingFactory : Env stubService :=
  {| DefaultConfig := MainScenario.defaultConfig;
     os_Stat := fun _ => inr (Errno "no such file or directory");
     exec_LookPath := fun _ => inr (Errno "executable file not found in $PATH");
     newServiceFn := fun _ => inr (errors_New "factory failure");
     notifyContextF := NotifyCtx |}.

(** A file system with a workspace directory and a gopls binary of mode
    [0o755]. *)
Definition installedEnv : Env stubService :=
  {| DefaultConfig := MainScenario.defaultConfig;
     os_Stat := fun p =>
       if String.eqb p "/ws" then inl {| IsDir := true; Mode := 493 |}
       else if String.eqb p "/usr/bin/gopls" then inl {| IsDir := false; Mode := 493 |}
       else inr (Errno "no such file or directory");
     exec_LookPath := fun p =>
       if String.eqb p "gopls" then inl "/usr/bin/gopls"
       else inr (Errno "executable file not found in $PATH");
     newServiceFn := fun _ => inl newStubService;
     notifyContextF := NotifyCtx |}.

Definition negativeShutdown : Flags :=
  {| flagWorkspace := "/ws"; flagGoplsPath := "gopls"; flagLogFile := "";
     flagLogLevel := "info"; flagLogJSON := false;
     flagRPCTimeout := 45 * Second; flagShutdownTimeout := -1 |}.

Definition fullFlags : Flags :=
  {| flagWorkspace := "/ws"; flagGoplsPath := "gopls"; flagLogFile := "app.log";
     flagLogLevel := "DEBUG"; flagLogJSON := true;
     flagRPCTimeout := 2 * Second; flagShutdownTimeout := 3 * Second |}.

End MainFlags.

(* ===================================================================== *)
(** ** pkg/tools: further notions and settings *)
(* ===================================================================== *)

Module ToolsExtra.
Import GoStrings GoErrors Tools.

Definition isNotify (e : Event) : bool :=
  match e with EvNotify _ _ _ _ => true | _ => false end.

(** The calls of a trace other than the notifications: temporary files,
    removals and runs of the command runner. *)
Definition otherCalls (evs : list Event) : list Event :=
  List.filter (fun e => negb (isNotify e)) evs.

(** The calls of one run of the per-function pipeline, given what
    [os.CreateTemp] answered: the creation alone when it failed; otherwise
    the creation, the test command on the profile, the report command or
    not, and the removal of the profile. *)
Definition pipelineCalls (target : string) (created : string + error)
    (evs : list Event) : Prop :=
  match created with
  | inr _ => evs = [EvCreateTemp "" "coverage-*.out"]
  | inl tempFile =>
      evs = [EvCreateTemp "" "coverage-*.out";
             EvRunCommand "go" ["test"; target; "-coverprofile"; tempFile];
             EvRemove tempFile]
      \/ evs = [EvCreateTemp "" "coverage-*.out";
                EvRunCommand "go" ["test"; target; "-coverprofile"; tempFile];
                EvRunCommand "go" ["tool"; "cover"; "-func"; tempFile];
                EvRemove tempFile]
  end.

(** External commands that leave the files as they are. *)
Definition quietCommands (env : Env) : Prop :=
  forall w ws name args, snd (exec_Command env w ws name args) = files w.

(** A request whose arguments hold no string under "path". *)
Definition noPathArgument (request : CallToolRequest) : Prop :=
  match GetArguments request with
  | Some args => string_arg args "path" = None
  | None => True
  end.

(** Entries that are not directories. *)
Definition plainEntries (entries : list DirEntry) : list DirEntry :=
  List.filter (fun e => negb (IsDir e)) entries.

(** A workspace holding a module file only. *)
Definition bareWorkspace : gmap string node :=
  {[ "/ws" := Dir [ {| Name := "go.mod"; IsDir := false |} ] ]}.

(** Commands that all succeed and write nothing; the protocol package
    stores what it is given and the send goes through. *)
Definition quietGo : Env :=
  {| NewProgressNotification := fun token progress message =>
       inl {| ProgressToken_ := token; Progress := progress; Message := message |};
     ProgressMethod := "notifications/progress";
     send_error := fun _ _ _ _ _ => None;
     temp_name := fun _ _ _ => inl "/tmp/coverage-2.out";
     exec_Command := fun w _ _ _ =>
       ({| Stdout := "ok"; Stderr := ""; ExitCode := 0 |}, None, files w) |}.

(** A request that gives a number where the path is expected. *)
Definition oddRequest : CallToolRequest :=
  {| Params_Meta := Some {| meta_ProgressToken := VString "tok-9" |};
     Params_Arguments := Some {[ "path" := VNumber 3 ]} |}.

End ToolsExtra.

(* ===================================================================== *)
(** ** Properties of the string functions *)
(* ===================================================================== *)

Module GoStringsFacts.
Import GoStrings Reference.

Lemma mapBytes_no_upper s : hasUpper s = false -> mapBytes lowerByte s = s.
Proof.
  induction s as [|c s IH]; simpl; [reflexivity|].
  intros Hu. apply orb_false_iff in Hu as [Hc Hs].
  rewrite IH by assumption. unfold lowerByte. rewrite Hc. reflexivity.
Qed.

(** On ASCII-only input [ToLower] is the byte-wise lowering. *)
Lemma ToLower_ascii `{Unicode} s : isASCII s = true -> ToLower s = mapBytes lowerByte s.
Proof.
  intros Ha. unfold ToLower. rewrite Ha.
  destruct (hasUpper s) eqn:Hu; [reflexivity|].
  symmetry. apply mapBytes_no_upper, Hu.
Qed.

Lemma allBytes_complete c : In c allBytes.
Proof.
  unfold allBytes. rewrite <- (ascii_nat_embedding c).
  apply in_map, in_seq. pose proof (nat_ascii_bounded c). lia.
Qed.

Lemma lowerByte_sameLetter_table :
  forallb (fun c => forallb (fun d =>
    isUpperByte d || Bool.eqb (Ascii.eqb (lowerByte c) d) (sameLetter c d))
    allBytes) allBytes = true.
Proof. vm_compute. reflexivity. Qed.

Lemma lowerByte_sameLetter c d :
  isUpperByte d = false -> Ascii.eqb (lowerByte c) d = sameLetter c d.
Proof.
  intros Hd.
  pose proof lowerByte_sameLetter_table as T.
  rewrite forallb_forall in T. specialize (T c (allBytes_complete c)).
  rewrite forallb_forall in T. specialize (T d (allBytes_complete d)).
  rewrite Hd in T. simpl in T. apply Bool.eqb_prop in T. exact T.
Qed.

Lemma mapBytes_equalFold s : forall w,
  hasUpper w = false -> String.eqb (mapBytes lowerByte s) w = equalFold s w.
Proof.
  induction s as [|c s IH]; intros [|d w] Hw; simpl; try reflexivity.
  simpl in Hw. apply orb_false_iff in Hw as [Hd Hw].
  rewrite (lowerByte_sameLetter c d Hd), (IH w Hw). reflexivity.
Qed.

(** For ASCII-only input, [ToLower s] is the lower-case word [w] exactly
    when [s] is [w] up to the case of its letters. *)
Lemma ToLower_equalFold `{Unicode} s w :
  isASCII s = true -> hasUpper w = false ->
  (ToLower s = w <-> equalFold s w = true).
Proof.
  intros Ha Hw. rewrite (ToLower_ascii s Ha), <- (mapBytes_equalFold s w Hw).
  symmetry. apply String.eqb_eq.
Qed.

End GoStringsFacts.

Module TrimFacts.
Import GoStrings ToolsReference.

Lemma append_cons c (a b : string) : String c a ++ b = String c (a ++ b).
Proof. reflexivity. Qed.

Lemma append_nil (b : string) : "" ++ b = b.
Proof. reflexivity. Qed.

Lemma substring_all s : substring 0 (String.length s) s = s.
Proof. induction s as [|c s IH]; simpl; [reflexivity|]. rewrite IH. reflexivity. Qed.

Lemma substring_skip pre s :
  substring (String.length pre) (String.length s) (pre ++ s) = s.
Proof.
  induction pre as [|c pre IH]; [apply substring_all|].
  rewrite append_cons. simpl. exact IH.
Qed.

Lemma length_append (a b : string) :
  String.length (a ++ b) = (String.length a + String.length b)%nat.
Proof.
  induction a as [|c a IH]; [reflexivity|].
  rewrite append_cons. simpl. rewrite IH. reflexivity.
Qed.

Lemma split_at s : forall n, (n <= String.length s)%nat ->
  s = substring 0 n s ++ substring n (String.length s - n) s.
Proof.
  induction s as [|c s IH]; intros [|n] Hn; simpl in *; try reflexivity.
  - rewrite substring_all. reflexivity.
  - rewrite append_cons. f_equal. apply IH. lia.
Qed.

(** [HasSuffix s suffix] holds exactly when [s] ends with [suffix]. *)
Lemma HasSuffix_spec s suffix :
  HasSuffix s suffix = true <-> exists stem, s = stem ++ suffix.
Proof.
  unfold HasSuffix. rewrite andb_true_iff, Nat.leb_le, String.eqb_eq. split.
  - intros [Hle Hsub].
    exists (substring 0 (String.length s - String.length suffix) s).
    pose proof (split_at s (String.length s - String.length suffix)) as E.
    replace (String.length s - (String.length s - String.length suffix))%nat
      with (String.length suffix) in E by lia.
    rewrite Hsub in E. apply E. lia.
  - intros [stem ->]. rewrite length_append. split; [lia|].
    replace (String.length stem + String.length suffix - String.length suffix)%nat
      with (String.length stem) by lia.
    apply substring_skip.
Qed.

Lemma trimStart_ascii s :
  isASCII s = true ->
  exists pre r, trimStart s = inl r /\ s = pre ++ r
                /\ allSpace pre = true /\ headSpace r = false /\ isASCII r = true.
Proof.
  induction s as [|c s IH]; simpl.
  - intros _. exists "", "". repeat split; reflexivity.
  - destruct (RuneSelf <=? byte c)%N eqn:Hc; [discriminate|].
    intros Ha. destruct (asciiSpace c) eqn:Hsp.
    + destruct (IH Ha) as (pre & r & Ht & -> & Hpre & Hh & Hr).
      exists (String c pre), r. repeat split; try assumption.
      simpl. rewrite Hsp, Hpre. reflexivity.
    + exists "", (String c s). repeat split; try assumption.
      simpl. rewrite Hc. exact Ha.
Qed.

Lemma trimStop_ascii r :
  isASCII r = true ->
  exists t post, trimStop r = inl t /\ r = t ++ post
                 /\ allSpace post = true /\ lastSpace t = false
                 /\ (t = "" \/ headSpace t = headSpace r).
Proof.
  induction r as [|c r IH]; simpl.
  - intros _. exists "", "". split; [reflexivity|]. split; [reflexivity|].
    split; [reflexivity|]. split; [reflexivity|]. left; reflexivity.
  - destruct (RuneSelf <=? byte c)%N eqn:Hc; [discriminate|].
    intros Ha. destruct (IH Ha) as (t & post & Ht & Hr & Hpost & Hl & _).
    rewrite Ht. destruct t as [|d t].
    + rewrite append_nil in Hr. subst r.
      destruct (asciiSpace c) eqn:Hsp.
      * exists "", (String c post). split; [reflexivity|]. split; [reflexivity|].
        split; [simpl; rewrite Hsp; exact Hpost|]. split; [reflexivity|].
        left; reflexivity.
      * exists (String c ""), post. split; [reflexivity|]. split; [reflexivity|].
        split; [exact Hpost|]. split; [exact Hsp|]. right; exact Hsp.
    + exists (String c (String d t)), post. split; [reflexivity|].
      split; [rewrite Hr; reflexivity|].
      split; [exact Hpost|]. split; [exact Hl|]. right; reflexivity.
Qed.

(** On ASCII-only input [TrimSpace] removes the surrounding white space. *)
Lemma TrimSpace_ascii `{Unicode} s : isASCII s = true -> trimmed s (TrimSpace s).
Proof.
  intros Ha. unfold TrimSpace, trimmed.
  destruct (trimStart_ascii s Ha) as (pre & r & E1 & Es & Hpre & Hh & Hr).
  destruct (trimStop_ascii r Hr) as (t & post & E2 & Er & Hpost & Hl & Ht).
  rewrite E1, E2. exists pre, post.
  split; [rewrite Es, Er; reflexivity|].
  split; [exact Hpre|]. split; [exact Hpost|]. split; [|exact Hl].
  destruct Ht as [E|E]; rewrite E; [reflexivity | exact Hh].
Qed.

End TrimFacts.

(* ===================================================================== *)
(** ** The lifecycle controller: properties *)
(* ===================================================================== *)

Module MainFacts.
Import GoStrings GoErrors Reference GoStringsFacts Main.

(** C9, as the specification words it, fails on the input "warning": the
    code accepts it (as the warn level) although it is none of debug, info,
    warn, error in any letter case. *)
Lemma parseLogLevel_accepts_warning :
  @parseLogLevel asciiOnly "warning" = (LevelWarn, None)
  /\ ~ In (@ToLower asciiOnly "warning") specLevelNames
  /\ forallb (fun w => negb (equalFold "warning" w)) specLevelNames = true.
Proof.
  split; [reflexivity|]. split; [|reflexivity].
  cbn. intros [E|[E|[E|[E|[]]]]]; discriminate E.
Qed.

(** C9 (amended): [parseLogLevel] accepts exactly the inputs whose
    lower-cased form is one of debug, info, warn, warning, error, and maps
    them to the debug, info, warn, warn and error level; every other input
    gets the info level together with an "unknown log level" error.  For
    ASCII-only input, the accepted inputs are these five words in any
    letter case. *)
Theorem parseLogLevel_levels `{Unicode} (level : string) :
  (forall name lvl,
     In (name, lvl) levelTable -> ToLower level = name ->
     parseLogLevel level = (lvl, None))
  /\ (~ In (ToLower level) codeLevelNames ->
     parseLogLevel level
     = (LevelInfo, Some (Errorf "unknown log level %q" [OpString level])))
  /\ (isASCII level = true ->
     (In (ToLower level) codeLevelNames
      <-> exists w, In w codeLevelNames /\ equalFold level w = true)).
Proof.
  unfold parseLogLevel. cbv zeta.
  split; [|split].
  - intros name lvl Hin E. rewrite E. cbn in Hin.
    destruct Hin as [P|[P|[P|[P|[P|[]]]]]]; injection P as <- <-; reflexivity.
  - intros Hnot.
    destruct (String.eqb_spec (ToLower level) "debug") as [E|_];
      [exfalso; apply Hnot; rewrite E; cbn; tauto|].
    destruct (String.eqb_spec (ToLower level) "info") as [E|_];
      [exfalso; apply Hnot; rewrite E; cbn; tauto|].
    destruct (String.eqb_spec (ToLower level) "warn") as [E|_];
      [exfalso; apply Hnot; rewrite E; cbn; tauto|].
    destruct (String.eqb_spec (ToLower level) "warning") as [E|_];
      [exfalso; apply Hnot; rewrite E; cbn; tauto|].
    destruct (String.eqb_spec (ToLower level) "error") as [E|_];
      [exfalso; apply Hnot; rewrite E; cbn; tauto|].
    reflexivity.
  - intros Ha. split.
    + intros Hin. exists (ToLower level). split; [exact Hin|].
      apply (ToLower_equalFold level (ToLower level) Ha); [|reflexivity].
      cbn in Hin.
      destruct Hin as [E|[E|[E|[E|[E|[]]]]]]; rewrite <- E; reflexivity.
    + intros (w & Hw & Hf).
      assert (Hu : hasUpper w = false).
      { cbn in Hw. destruct Hw as [E|[E|[E|[E|[E|[]]]]]]; rewrite <- E; reflexivity. }
      apply (ToLower_equalFold level w Ha Hu) in Hf. rewrite Hf. exact Hw.
Qed.

End MainFacts.

Module MainRunFacts.
Import GoStrings GoErrors Main MainScenario.

(** C6: when the configuration is built and the service is constructed,
    [run] ends by invoking the runner's [Close] with the background
    context, once, after [Start] has returned and after the signal context
    is stopped, whether [Start] fails (the error comes back wrapped as a
    service error) or returns normally (the completion line is printed and
    no error comes back). *)
Theorem run_closes_service {U : Unicode} {S : Type} {R : serviceRunner S}
    (env : Env S) (f : Flags) (cfg : Config) (s0 : S) (w : World S) :
  buildConfigFromFlags env f = inl cfg ->
  newServiceFn env cfg = inl s0 ->
  let ctx := notifyContextF env Background [Interrupt; SIGTERM] in
  let (startErr, s1) := Start ctx s0 in
  let (_, s2) := Close Background s1 in
  run env f w =
    (match startErr with
     | Some e => Some (Errorf_w "service error: %w" [] e)
     | None => None
     end,
     {| svc := Some s2;
        trace := trace w
                 ++ [EvNewService cfg;
                     EvNotifyContext Background [Interrupt; SIGTERM];
                     EvStart ctx]
                 ++ match startErr with
                    | Some _ => []
                    | None => [EvPrintln "mcp-gopls shutdown complete"]
                    end
                 ++ [EvStop; EvClose Background] |}).
Proof.
  intros Hcfg Hsvc ctx.
  destruct (Start ctx s0) as [startErr s1] eqn:HS.
  destruct (Close Background s1) as [u s2] eqn:HC.
  unfold run. rewrite Hcfg.
  unfold defer, call_newServiceFn, call_notifyContextF, svc_Start, svc_Close,
    stop, fmt_Println, on_service, log, bind, ret.
  cbn. rewrite Hsvc. cbn. fold ctx. rewrite HS.
  destruct startErr as [e|]; cbn; rewrite HC; cbn;
    repeat rewrite <- app_assoc; reflexivity.
Qed.

Lemma run_closes_service_witness :
  buildConfigFromFlags (U := asciiOnly) (stubEnv failingStub) noFlags = inl defaultConfig
  /\ newServiceFn (stubEnv failingStub) defaultConfig = inl failingStub
  /\ run (U := asciiOnly) (stubEnv failingStub) noFlags initial
     = (Some (Errorf_w "service error: %w" [] (errors_New "boom")),
        {| svc := Some {| startCtx := Some (NotifyCtx Background [Interrupt; SIGTERM]);
                          startErr := Some (errors_New "boom");
                          closeCalled := true |};
           trace := [EvNewService defaultConfig;
                     EvNotifyContext Background [Interrupt; SIGTERM];
                     EvStart (NotifyCtx Background [Interrupt; SIGTERM]);
                     EvStop; EvClose Background] |}).
Proof.
  split; [reflexivity|]. split; [reflexivity|].
  exact (run_closes_service (U := asciiOnly) (stubEnv failingStub) noFlags
           defaultConfig failingStub initial eq_refl eq_refl).
Defined.

End MainRunFacts.

(* ===================================================================== *)
(** ** Target normalisation: properties *)
(* ===================================================================== *)

Module NormalizeFacts.
Import GoStrings GoErrors Tools ToolsReference TrimFacts ToolsScenario.

Lemma hasGoEntry_spec entries : hasGoEntry entries = true <-> Exists isGoFile entries.
Proof.
  induction entries as [|e rest IH]; simpl.
  - split; [discriminate|]. intros HE. inversion HE.
  - rewrite Exists_cons. unfold isGoFile at 1.
    destruct (IsDir e) eqn:Hd.
    + rewrite IH. split; [tauto|]. intros [[Hf _]|HE]; [discriminate|exact HE].
    + destruct (HasSuffix (Name e) ".go") eqn:Hs.
      * apply HasSuffix_spec in Hs. tauto.
      * rewrite IH. split; [tauto|]. intros [[_ Hn]|HE]; [|exact HE].
        apply HasSuffix_spec in Hn. congruence.
Qed.

Lemma TrimSpace_dot `{Unicode} : TrimSpace "." = ".".
Proof. reflexivity. Qed.

(** C5: for every workspace directory (a path [os.ReadDir] lists, with
    [entries] at its root), the target "." becomes "./..." when no entry of
    the root is a Go source file, and stays "." when one is. *)
Theorem normalizePackageTarget_dot `{Unicode}
    (fs : gmap string node) (workspaceDir : string) (entries : list DirEntry) :
  os_ReadDir fs workspaceDir = inl entries ->
  (~ Exists isGoFile entries -> normalizePackageTarget fs workspaceDir "." = "./...")
  /\ (Exists isGoFile entries -> normalizePackageTarget fs workspaceDir "." = ".").
Proof.
  intros Hread.
  assert (Hws : String.eqb workspaceDir "" = false).
  { unfold os_ReadDir in Hread.
    destruct (String.eqb workspaceDir ""); [discriminate Hread|reflexivity]. }
  unfold normalizePackageTarget, dirHasGoFiles. rewrite TrimSpace_dot, Hread.
  rewrite Hws. cbn.
  rewrite <- hasGoEntry_spec.
  destruct (hasGoEntry entries); cbn; split; intros Hg; try reflexivity.
  - exfalso. apply Hg. reflexivity.
  - discriminate Hg.
Qed.

Lemma normalizePackageTarget_dot_witness :
  os_ReadDir nestedWorkspace "/ws"
  = inl [ {| Name := "cmd"; IsDir := true |};
          {| Name := "go.mod"; IsDir := false |};
          {| Name := "pkg.go"; IsDir := true |} ]
  /\ @normalizePackageTarget asciiOnly nestedWorkspace "/ws" "." = "./...".
Proof.
  split; [reflexivity|].
  refine (proj1 (@normalizePackageTarget_dot asciiOnly nestedWorkspace "/ws" _ eq_refl) _).
  intros HE. apply hasGoEntry_spec in HE. discriminate HE.
Defined.

(** C10: [normalizePackageTarget] always returns a target, which is the
    trimmed request or "./...".  The request is trimmed first (for
    ASCII-only requests the trimmed text is the request without its
    leading and trailing white space); an empty trimmed request gives
    "./..." whatever the workspace; with an empty workspace directory, or
    one that cannot be listed, the trimmed request comes back unchanged
    and the listing error goes nowhere; "./" takes the same decision as
    ".". *)
Theorem normalizePackageTarget_cases `{Unicode}
    (fs : gmap string node) (workspaceDir requested : string) :
  let target := TrimSpace requested in
  let result := normalizePackageTarget fs workspaceDir requested in
  (isASCII requested = true -> trimmed requested target)
  /\ (target = "" -> result = "./...")
  /\ (target <> "" -> workspaceDir = "" -> result = target)
  /\ (target <> "" -> (exists err, os_ReadDir fs workspaceDir = inr err) ->
      result = target)
  /\ (result = target \/ result = "./...")
  /\ (forall requested',
        target = "." -> TrimSpace requested' = "./" ->
        let result' := normalizePackageTarget fs workspaceDir requested' in
        (result = "./..." <-> result' = "./...")
        /\ (result <> "./..." -> result = "." /\ result' = "./")).
Proof.
  intros target result. subst result.
  split; [apply TrimSpace_ascii|].
  unfold normalizePackageTarget, dirHasGoFiles. fold target.
  split; [intros ->; reflexivity|].
  split.
  { intros Ht ->. apply String.eqb_neq in Ht. rewrite Ht. reflexivity. }
  split.
  { intros Ht [err Herr]. apply String.eqb_neq in Ht. rewrite Ht, Herr.
    destruct (workspaceDir =? ""); [reflexivity|].
    destruct (_ || _); reflexivity. }
  split.
  { destruct (target =? "") eqn:Ht; [right; reflexivity|].
    destruct (workspaceDir =? ""); [left; reflexivity|].
    destruct (_ || _); [|left; reflexivity].
    destruct (os_ReadDir fs workspaceDir); [|left; reflexivity].
    destruct (hasGoEntry l); cbn; [left|right]; reflexivity. }
  intros requested' Ht Ht'. cbv zeta. rewrite Ht, Ht'. cbn.
  destruct (workspaceDir =? "").
  { split; [split; discriminate|]. intros _. split; reflexivity. }
  destruct (os_ReadDir fs workspaceDir) as [entries|err].
  - destruct (hasGoEntry entries); cbn.
    + split; [split; discriminate|]. intros _. split; reflexivity.
    + split; [split; reflexivity|]. intros Hne. exfalso. apply Hne. reflexivity.
  - split; [split; discriminate|]. intros _. split; reflexivity.
Qed.

End NormalizeFacts.

(* ===================================================================== *)
(** ** The coverage pipeline: properties *)
(* ===================================================================== *)

Module PipelineFacts.
Import GoStrings GoErrors Tools ToolsReference PipelineReference.

Lemma failed_to_run_completed err : failed_to_run err = false <-> completed err.
Proof.
  unfold completed, failed_to_run, isExitSuccess. destruct err as [e|].
  - rewrite negb_false_iff. split.
    + intros He. right. exists e. split; [reflexivity|exact He].
    + intros [Hn|(e' & He' & Hx)]; [discriminate|]. congruence.
  - split; [left|]; reflexivity.
Qed.

Ltac step_pipeline :=
  unfold runCoverageByFunction, os_CreateTemp, os_Remove, file_Close, runCommand,
    defer, log, bind, ret; cbn.

(** C1: in [runCoverageByFunction] the report command is invoked exactly
    when the test command was invoked and completed (no error, or an
    exit-status error).  When the temporary file cannot be created nothing
    is invoked; when the test command fails to run, the pipeline returns
    its result and its error at once, and only removes the file. *)
Theorem report_runs_iff_test_completed
    (env : Env) (t : LSPTools) (ctx : option Context) (srv : option MCPServer)
    (token : ProgressToken) (target : string) (w : World) :
  let (res, w') := runCoverageByFunction env t ctx srv token target w in
  match os_CreateTemp env "" "coverage-*.out" w with
  | (inr err, _) =>
      res = ({| test := commandResult_zero; cover := None |}, Some err)
      /\ eventsSince w w' = [EvCreateTemp "" "coverage-*.out"]
  | (inl tempFile, w1) =>
      let '((testResult, err), _) :=
        runCommand env t ctx srv token "go" (testArgs target tempFile) w1 in
      (In (EvRunCommand "go" (reportArgs tempFile)) (eventsSince w w') <-> completed err)
      /\ (~ completed err ->
          res = ({| test := testResult; cover := None |}, err)
          /\ eventsSince w w'
             = [EvCreateTemp "" "coverage-*.out";
                EvRunCommand "go" (testArgs target tempFile);
                EvRemove tempFile])
  end.
Proof.
  destruct w as [fs tr]. step_pipeline.
  destruct (temp_name env _ "" "coverage-*.out") as [name|err]; cbn;
    [|split; [reflexivity|apply drop_app_length]].
  destruct (fs !! name) eqn:Hname; cbn;
    [split; [reflexivity|apply drop_app_length]|].
  unfold testArgs, reportArgs.
  destruct (exec_Command env _ (workspaceDir t) "go" ["test"; _; _; _])
    as [[testResult err] fs2]; cbn.
  destruct (failed_to_run err) eqn:Hfail; cbn.
  - assert (Hnot : ~ completed err).
    { intros Hc. apply failed_to_run_completed in Hc. congruence. }
    destruct (fs2 !! name) as [[|[|? ?]]|]; cbn;
      rewrite <- !app_assoc; cbn; rewrite drop_app_length;
      (split; [split; [intros [E|[E|[E|[]]]]; discriminate E | intros Hc; contradiction]
              | intros _; split; reflexivity]).
  - apply failed_to_run_completed in Hfail.
    destruct (exec_Command env _ (workspaceDir t) "go" ["tool"; _; _; _])
      as [[coverResult coverErr] fs3]; cbn.
    destruct (failed_to_run coverErr); cbn;
      destruct (fs3 !! name) as [[|[|? ?]]|]; cbn;
      rewrite <- !app_assoc; cbn; rewrite drop_app_length;
      (split; [split; [intros _; exact Hfail | intros _; cbn; tauto]
              | intros Hn; contradiction]).
Qed.

(** C3: the temporary profile that [runCoverageByFunction] creates is a
    file before the test command runs and is no file once the pipeline has
    returned, whatever the commands did and whichever return was taken;
    when the file cannot be created the files are as they were. *)
Theorem coverage_profile_removed
    (env : Env) (t : LSPTools) (ctx : option Context) (srv : option MCPServer)
    (token : ProgressToken) (target : string) (w : World) :
  let (_, w') := runCoverageByFunction env t ctx srv token target w in
  match os_CreateTemp env "" "coverage-*.out" w with
  | (inr _, _) => files w' = files w
  | (inl tempFile, w1) =>
      files w !! tempFile = None
      /\ fileExists (files w1) tempFile = true
      /\ fileExists (files w') tempFile = false
  end.
Proof.
  destruct w as [fs tr]. step_pipeline. unfold fileExists.
  destruct (temp_name env _ "" "coverage-*.out") as [name|err]; cbn; [|reflexivity].
  destruct (fs !! name) eqn:Hname; cbn; [reflexivity|].
  assert (Hnew : match <[name:=File]> fs !! name with
                 | Some File => true
                 | _ => false
                 end = true) by (rewrite lookup_insert_eq; reflexivity).
  destruct (exec_Command env _ (workspaceDir t) "go" ["test"; _; _; _])
    as [[testResult err] fs2]; cbn.
  destruct (failed_to_run err); cbn.
  - destruct (fs2 !! name) as [[|[|? ?]]|] eqn:H2; cbn;
      rewrite ?lookup_delete_eq, ?H2; auto.
  - destruct (exec_Command env _ (workspaceDir t) "go" ["tool"; _; _; _])
      as [[coverResult coverErr] fs3]; cbn.
    destruct (failed_to_run coverErr); cbn;
      destruct (fs3 !! name) as [[|[|? ?]]|] eqn:H3; cbn;
      rewrite ?lookup_delete_eq, ?H3; auto.
Qed.

End PipelineFacts.

(* ===================================================================== *)
(** ** Progress notifications: properties *)
(* ===================================================================== *)

Module NotifyFacts.
Import GoStrings GoErrors Tools PipelineReference NotifyReference NotifyScenario.

(** C7: [sendProgressNotification] sends nothing when the server or the
    token is nil.  When it sends, it sends one notification whose
    parameters hold the token under "progressToken", the number 0 under
    "progress", the message under "message" when the message is not empty,
    and nothing else.  It returns in every case: when the payload cannot be
    built nothing happens, and what the send answers changes neither the
    result nor the world. *)
Theorem progress_notification_advisory
    (env : Env) (ctx : option Context) (srv : option MCPServer)
    (token : ProgressToken) (message : string) (w : World) :
  recordsArguments env ->
  let (_, w') := sendProgressNotification env ctx srv token message w in
  files w' = files w
  /\ (srv = None \/ token = VNil -> w' = w)
  /\ ((exists err, NewProgressNotification env token 0 message = inr err) -> w' = w)
  /\ (forall f,
        sendProgressNotification (withSendError f env) ctx srv token message w
        = sendProgressNotification env ctx srv token message w)
  /\ (eventsSince w w' = []
      \/ exists s params,
           srv = Some s
           /\ eventsSince w w'
              = [EvNotify (srv_id s) (default Background ctx) (ProgressMethod env) params]
           /\ params !! "progressToken" = Some token
           /\ params !! "progress" = Some (VNumber 0)
           /\ params !! "message"
              = (if String.eqb message "" then None else Some (VString message))
           /\ dom params ⊆ ({["progressToken"; "progress"; "message"]} : gset string)).
Proof.
  intros Hrec. destruct w as [fs tr].
  unfold sendProgressNotification, eventsSince.
  destruct srv as [s|]; cbn.
  2:{ rewrite drop_all. repeat split; auto. }
  destruct token as [| tok | n | b | r]; cbn.
  1:{ rewrite drop_all. repeat split; auto. }
  all: destruct (NewProgressNotification env _ 0 message) as [p|err] eqn:HN.
  all: try (cbn; rewrite drop_all; repeat split; auto;
            intros [H|H]; discriminate H).
  all: apply Hrec in HN; subst p; cbn;
    unfold SendNotificationToClient, bind, ret; cbn;
    (split; [reflexivity|]);
    (split; [intros [H|H]; discriminate H|]);
    (split; [intros [err H]; discriminate H|]);
    (split; [intros f; reflexivity|]);
    right; rewrite drop_app_length;
    eexists s, _; (split; [reflexivity|]); (split; [destruct ctx; reflexivity|]);
    destruct (String.eqb message ""); cbn;
    (split; [reflexivity|]); (split; [reflexivity|]); (split; [reflexivity|]);
    rewrite ?dom_insert_L, dom_empty_L; set_unfold; intros x; tauto.
Qed.

Lemma progress_notification_advisory_witness :
  recordsArguments deafClient
  /\ files (snd (sendProgressNotification deafClient (Some (RequestCtx 1))
                   (Some server7) (VString "tok-1") "Running go test for ./..."
                   emptyWorld))
     = files emptyWorld.
Proof.
  assert (Hrec : recordsArguments deafClient).
  { intros token progress message n Hn. injection Hn as <-. reflexivity. }
  split; [exact Hrec|].
  exact (proj1 (progress_notification_advisory deafClient (Some (RequestCtx 1))
                  (Some server7) (VString "tok-1") "Running go test for ./..."
                  emptyWorld Hrec)).
Defined.

End NotifyFacts.

(* ===================================================================== *)
(** ** The tool handlers: properties *)
(* ===================================================================== *)

Module HandlerFacts.
Import GoStrings GoErrors Tools ToolsReference PipelineReference PipelineFacts.
Import HandlerReference NotifyScenario HandlerScenario.

Ltac step_handler :=
  unfold goTestHandler, coverageHandler, read, bind, ret; cbv beta iota zeta.

(** C4: in [run_go_test], on every request, and in [analyze_coverage] on
    every request whose mode is not "func" (the simple mode), a command
    that completed (no error, or an exit-status error such as failing
    tests) gives a JSON result whose payload holds the command result; only
    a command that failed to run gives an error result. *)
Theorem reported_failure_is_a_result `{Unicode}
    (env : Env) (t : LSPTools) (s : MCPServer) (ctx : option Context)
    (request : CallToolRequest) (w : World) :
  let token := getProgressToken (Params_Meta request) in
  let target :=
    normalizePackageTarget (files w) (workspaceDir t) (requestedPath "./..." request) in
  let packagePath :=
    normalizePackageTarget (files w) (workspaceDir t) (requestedPath "" request) in
  (forall (result : commandResult) (err : option error) (w2 : World),
     runCommand env t ctx (Some s) token "go" ["test"; target]
       (snd (sendProgressNotification env ctx (Some s) token
               ("Running go test for " ++ target) w))
     = ((result, err), w2) ->
     (completed err ->
        goTestHandler env t s ctx request w
        = ((Some (ToolResultJSON
                    (<["result" := VCommand result]> {[ "target" := VString target ]})),
            None), w2))
     /\ (~ completed err ->
        goTestHandler env t s ctx request w
        = ((Some (ToolResultError "go test failed" err), None), w2)))
  /\ (requestedMode request <> "func" ->
      forall (testResult : commandResult) (testErr : option error) (w2' : World),
        runCommand env t ctx (Some s) token "go" ["test"; packagePath; "-cover"]
          (snd (sendProgressNotification env ctx (Some s) token
                  ("Running go test -cover for " ++ packagePath) w))
        = ((testResult, testErr), w2') ->
        (completed testErr ->
           coverageHandler env t s ctx request w
           = ((Some (ToolResultJSON
                       (<["test" := VCommand testResult]>
                          (<["mode" := VString (requestedMode request)]>
                             {[ "target" := VString packagePath ]}))),
               None), w2'))
        /\ (~ completed testErr ->
           coverageHandler env t s ctx request w
           = ((Some (ToolResultError "go test failed" testErr), None), w2'))).
Proof.
  intros token target packagePath. split.
  - intros result err w2 Hrun.
    assert (Hgo : goTestHandler env t s ctx request w
                  = (if failed_to_run err
                     then (Some (ToolResultError "go test failed" err), None)
                     else (Some (ToolResultJSON
                                   (<["result" := VCommand result]>
                                      {[ "target" := VString target ]})), None),
                     w2)).
    { step_handler. fold (requestedPath "./..." request). fold target. fold token.
      destruct (sendProgressNotification env ctx (Some s) token
                  ("Running go test for " ++ target) w) as [u w1].
      cbn [snd] in Hrun. rewrite Hrun.
      destruct (failed_to_run err); reflexivity. }
    rewrite Hgo.
    destruct (failed_to_run err) eqn:He; split; intros Hd; try reflexivity.
    + apply failed_to_run_completed in Hd. congruence.
    + apply failed_to_run_completed in He. contradiction.
  - intros Hmode testResult testErr w2' Hcov.
    assert (Hcv : coverageHandler env t s ctx request w
                  = (if failed_to_run testErr
                     then (Some (ToolResultError "go test failed" testErr), None)
                     else (Some (ToolResultJSON
                                   (<["test" := VCommand testResult]>
                                      (<["mode" := VString (requestedMode request)]>
                                         {[ "target" := VString packagePath ]}))), None),
                     w2')).
    { step_handler. fold (requestedPath "" request). fold packagePath. fold token.
      fold (requestedMode request).
      apply String.eqb_neq in Hmode. rewrite Hmode. cbv iota.
      destruct (sendProgressNotification env ctx (Some s) token
                  ("Running go test -cover for " ++ packagePath) w) as [u w1].
      cbn [snd] in Hcov. rewrite Hcov.
      destruct (failed_to_run testErr); reflexivity. }
    rewrite Hcv.
    destruct (failed_to_run testErr) eqn:He; split; intros Hd; try reflexivity.
    + apply failed_to_run_completed in Hd. congruence.
    + apply failed_to_run_completed in He. contradiction.
Qed.

(** A request for [run_go_test] that also carries the "func" format of the
    other tool is served like any other. *)
Lemma reported_failure_is_a_result_witness :
  completed (Some (ExitError 1))
  /\ requestedMode plainRequest <> "func"
  /\ @goTestHandler asciiOnly reportWorks tools0 server7 (Some (RequestCtx 1))
       plainRequest flatWorld
     = ((Some (ToolResultJSON
                 (<["result" := VCommand failingTests]>
                    {[ "target" := VString "./..." ]})), None), afterGoTest)
  /\ fst (@goTestHandler asciiOnly reportWorks tools0 server7 (Some (RequestCtx 1))
            funcRequest flatWorld)
     = (Some (ToolResultJSON
                (<["result" := VCommand failingTests]>
                   {[ "target" := VString "./..." ]})), None)
  /\ @coverageHandler asciiOnly reportWorks tools0 server7 (Some (RequestCtx 1))
       plainRequest flatWorld
     = ((Some (ToolResultJSON
                 (<["test" := VCommand failingTests]>
                    (<["mode" := VString "summary"]>
                       {[ "target" := VString "./..." ]}))), None), afterGoTestCover).
Proof.
  assert (Hc : completed (Some (ExitError 1))).
  { right. exists (ExitError 1). split; reflexivity. }
  assert (Hm : requestedMode plainRequest <> "func") by discriminate.
  pose proof (@reported_failure_is_a_result asciiOnly reportWorks tools0 server7
                (Some (RequestCtx 1)) plainRequest flatWorld) as (Hgo & Hcov).
  pose proof (@reported_failure_is_a_result asciiOnly reportWorks tools0 server7
                (Some (RequestCtx 1)) funcRequest flatWorld) as (Hgo' & _).
  split; [exact Hc|]. split; [exact Hm|].
  split; [exact (proj1 (Hgo failingTests (Some (ExitError 1)) afterGoTest eq_refl) Hc)|].
  split.
  - rewrite (proj1 (Hgo' failingTests (Some (ExitError 1)) _ eq_refl) Hc). reflexivity.
  - exact (proj1 (Hcov Hm failingTests (Some (ExitError 1)) afterGoTestCover eq_refl) Hc).
Defined.

(** C2, as the specification words it, fails: with failing tests and a
    report command that cannot be started, the pipeline does hand the test
    result and the error to the handler, but what [analyze_coverage]
    returns is an error result that carries no test result. *)
Lemma partial_coverage_drops_test_result :
  fst (runCoverageByFunction reportCannotStart tools0 (Some (RequestCtx 1))
         (Some server7) (VString "tok-1") "./..." flatWorld)
  = ({| test := failingTests; cover := None |}, Some cannotStart)
  /\ fst (@coverageHandler asciiOnly reportCannotStart tools0 server7
            (Some (RequestCtx 1)) funcRequest flatWorld)
     = (Some (ToolResultError "coverage analysis failed" (Some cannotStart)), None)
  /\ ~ carries (ToolResultError "coverage analysis failed" (Some cannotStart))
        (VCommand failingTests).
Proof.
  split; [vm_compute; reflexivity|].
  split; [vm_compute; reflexivity|]. intros [].
Qed.

(** C2 (amended): in the per-function mode of [analyze_coverage], when the
    test command completes and the report command fails to run, the
    pipeline [runCoverageByFunction] returns the test result without a
    report together with the report command's error, and the handler
    returns the error result "coverage analysis failed" made from that
    error; the temporary file has been removed. *)
Theorem partial_coverage_is_an_error_result `{Unicode}
    (env : Env) (t : LSPTools) (s : MCPServer) (ctx : option Context)
    (request : CallToolRequest) (w w1 w2 w3 : World) (tempFile : string)
    (testResult coverResult : commandResult) (err coverErr : option error) :
  let token := getProgressToken (Params_Meta request) in
  let packagePath :=
    normalizePackageTarget (files w) (workspaceDir t) (requestedPath "" request) in
  let w0 := snd (sendProgressNotification env ctx (Some s) token
                   ("Running go test with coverage for " ++ packagePath) w) in
  requestedMode request = "func" ->
  os_CreateTemp env "" "coverage-*.out" w0 = (inl tempFile, w1) ->
  runCommand env t ctx (Some s) token "go" (testArgs packagePath tempFile) w1
  = ((testResult, err), w2) ->
  completed err ->
  runCommand env t ctx (Some s) token "go" (reportArgs tempFile) w2
  = ((coverResult, coverErr), w3) ->
  ~ completed coverErr ->
  runCoverageByFunction env t ctx (Some s) token packagePath w0
  = (({| test := testResult; cover := None |}, coverErr),
     snd (os_Remove tempFile w3))
  /\ coverageHandler env t s ctx request w
     = ((Some (ToolResultError "coverage analysis failed" coverErr), None),
        snd (os_Remove tempFile w3))
  /\ fileExists (files (snd (os_Remove tempFile w3))) tempFile = false.
Proof.
  intros token packagePath w0 Hmode Htemp Htest Hdone Hreport Hfail.
  apply failed_to_run_completed in Hdone.
  assert (Hf : failed_to_run coverErr = true).
  { destruct (failed_to_run coverErr) eqn:E; [reflexivity|].
    apply failed_to_run_completed in E. contradiction. }
  assert (Hpipe : runCoverageByFunction env t ctx (Some s) token packagePath w0
                  = (({| test := testResult; cover := None |}, coverErr),
                     snd (os_Remove tempFile w3))).
  { unfold runCoverageByFunction, defer, bind at 1. rewrite Htemp.
    unfold file_Close, bind, ret. unfold testArgs in Htest. rewrite Htest, Hdone.
    unfold reportArgs in Hreport. rewrite Hreport, Hf.
    destruct (os_Remove tempFile w3) as [o w4]. reflexivity. }
  split; [exact Hpipe|]. split.
  - step_handler. fold (requestedPath "" request). fold packagePath. fold token.
    fold (requestedMode request). rewrite Hmode. cbn [String.eqb Ascii.eqb Bool.eqb].
    cbv iota.
    destruct (sendProgressNotification env ctx (Some s) token
                ("Running go test with coverage for " ++ packagePath) w) as [u w0'].
    subst w0. cbn [snd] in Hpipe. rewrite Hpipe.
    destruct coverErr as [e|]; [reflexivity|discriminate Hf].
  - unfold fileExists, os_Remove, log, bind. cbn.
    destruct (files w3 !! tempFile) as [[|[|? ?]]|] eqn:E; cbn;
      rewrite ?lookup_delete_eq, ?E; reflexivity.
Qed.

Lemma partial_coverage_is_an_error_result_witness :
  requestedMode funcRequest = "func"
  /\ completed (Some (ExitError 1))
  /\ ~ completed (Some cannotStart)
  /\ fst (@coverageHandler asciiOnly reportCannotStart tools0 server7
            (Some (RequestCtx 1)) funcRequest flatWorld)
     = (Some (ToolResultError "coverage analysis failed" (Some cannotStart)), None).
Proof.
  assert (Hc : completed (Some (ExitError 1))).
  { right. exists (ExitError 1). split; reflexivity. }
  assert (Hn : ~ completed (Some cannotStart)).
  { intros [E|(e & E & X)]; [discriminate E|]. injection E as <-. discriminate X. }
  split; [reflexivity|]. split; [exact Hc|]. split; [exact Hn|].
  set (w0 := snd (sendProgressNotification reportCannotStart (Some (RequestCtx 1))
                    (Some server7) (VString "tok-1")
                    "Running go test with coverage for ./..." flatWorld)).
  set (w1 := snd (os_CreateTemp reportCannotStart "" "coverage-*.out" w0)).
  set (w2 := snd (runCommand reportCannotStart tools0 (Some (RequestCtx 1))
                    (Some server7) (VString "tok-1") "go"
                    (testArgs "./..." "/tmp/coverage-1.out") w1)).
  set (w3 := snd (runCommand reportCannotStart tools0 (Some (RequestCtx 1))
                    (Some server7) (VString "tok-1") "go"
                    (reportArgs "/tmp/coverage-1.out") w2)).
  pose proof (@partial_coverage_is_an_error_result asciiOnly reportCannotStart
                tools0 server7 (Some (RequestCtx 1)) funcRequest
                flatWorld w1 w2 w3 "/tmp/coverage-1.out"
                failingTests commandResult_zero (Some (ExitError 1)) (Some cannotStart)
                eq_refl eq_refl eq_refl Hc eq_refl Hn) as (_ & Hh & _).
  rewrite Hh. reflexivity.
Defined.

Lemma registerTestingTools_table `{Unicode} (env : Env) (t : LSPTools) (s : MCPServer) :
  tools (registerTestingTools env t s)
  = <["run_go_test" :=
        {| tool := NewTool "run_go_test"
             [ WithDescription "Run go test for a package or pattern";
               WithString "path"
                 [Description "Package path or pattern. Defaults to ./..."] ];
           handler := goTestHandler env t (registerCoverageAnalysis env t s) |}]>
      (<["analyze_coverage" :=
           {| tool := NewTool "analyze_coverage"
                [ WithDescription "Analyze test coverage for Go code";
                  WithString "path"
                    [Description
                       "Path to the package or directory to analyze. Defaults to ./..."];
                  WithString "output_format"
                    [Description
                       "Format of the coverage output: 'summary' (default) or 'func' (per function)"] ];
              handler := coverageHandler env t s |}]> (tools s)).
Proof. reflexivity. Qed.

(** C8, as the specification words it, fails on the second name: no tool
    named run_tests is registered; the two names are analyze_coverage and
    run_go_test. *)
Lemma run_tests_is_not_registered :
  tools (@registerTestingTools asciiOnly reportWorks tools0 server7) !! "run_tests" = None
  /\ dom (tools (@registerTestingTools asciiOnly reportWorks tools0 server7))
     = ({["analyze_coverage"; "run_go_test"]} : gset string).
Proof.
  rewrite registerTestingTools_table. split.
  - rewrite !lookup_insert_ne by discriminate. reflexivity.
  - rewrite !dom_insert_L. cbn [tools server7]. rewrite dom_empty_L.
    apply set_eq. intros x. set_unfold. tauto.
Qed.

(** C8 (amended): [registerTestingTools] adds exactly two tools to the
    server, under the names analyze_coverage and run_go_test.  The tool
    run_go_test declares one property, "path", of type string and not
    required, and a result of its handler that is not an error result is
    the JSON rendering of a payload with exactly the fields "target" (a
    string) and "result" (the command result). *)
Theorem testing_tools_surface `{Unicode} (env : Env) (t : LSPTools) (s : MCPServer) :
  let s' := registerTestingTools env t s in
  dom (tools s') = ({["analyze_coverage"; "run_go_test"]} : gset string) ∪ dom (tools s)
  /\ (forall name, name <> "analyze_coverage" -> name <> "run_go_test" ->
        tools s' !! name = tools s !! name)
  /\ exists st,
       tools s' !! "run_go_test" = Some st
       /\ Tool_Name (tool st) = "run_go_test"
       /\ Properties (tool st)
          = {[ "path" :=
                 <["description" := VString "Package path or pattern. Defaults to ./..."]>
                   {[ "type" := VString "string" ]} ]}
       /\ Required_ (tool st) = []
       /\ forall ctx request w,
            match fst (handler st ctx request w) with
            | (Some (ToolResultJSON payload), None) =>
                dom payload = ({["target"; "result"]} : gset string)
                /\ (exists target, payload !! "target" = Some (VString target))
                /\ (exists result, payload !! "result" = Some (VCommand result))
            | (Some (ToolResultError _ _), None) => True
            | _ => False
            end.
Proof.
  intros s'. subst s'. rewrite registerTestingTools_table.
  split; [|split].
  - rewrite !dom_insert_L. apply set_eq. intros x. set_unfold. tauto.
  - intros name H1 H2. rewrite !lookup_insert_ne by congruence. reflexivity.
  - eexists. split; [apply lookup_insert_eq|].
    split; [reflexivity|]. split; [reflexivity|]. split; [reflexivity|].
    intros ctx request w. cbn [handler]. step_handler.
    destruct (sendProgressNotification _ _ _ _ _ _) as [u w1].
    destruct (runCommand _ _ _ _ _ _ _ _) as [[result err] w2].
    destruct (failed_to_run err); cbn; [exact I|].
    split; [|split].
    + rewrite !dom_insert_L, dom_empty_L. apply set_eq. intros x. set_unfold. tauto.
    + eexists. rewrite lookup_insert_ne by discriminate. apply lookup_insert_eq.
    + eexists. apply lookup_insert_eq.
Qed.

End HandlerFacts.


(* ===================================================================== *)
(** ** The repository's tests and the exit paths, run on the embedding *)
(* ===================================================================== *)

Module ReplayMain.
Import GoStrings GoErrors Main MainScenario.

(** [TestParseLogLevel]. *)
Example TestParseLogLevel_info :
  @parseLogLevel asciiOnly "info" = (LevelInfo, None).
Proof. reflexivity. Qed.

Example TestParseLogLevel_invalid :
  @parseLogLevel asciiOnly "verbose"
  = (LevelInfo, Some (Errorf "unknown log level %q" [OpString "verbose"])).
Proof. reflexivity. Qed.

Example parseLogLevel_mixed_case :
  @parseLogLevel asciiOnly "ErRoR" = (LevelError, None).
Proof. reflexivity. Qed.

(** [TestRunHandlesSignalShutdown]: [Start] returns nil once the context is
    cancelled; the completion line is printed and the service is closed. *)
Example TestRunHandlesSignalShutdown :
  run (U := asciiOnly) (stubEnv newStubService)
    noFlags initial
  = (None,
     {| svc :=
          Some {| startCtx :=
                    Some (NotifyCtx Background [Interrupt; SIGTERM]);
                  startErr := None;
                  closeCalled := true |};
        trace :=
          [EvNewService defaultConfig;
           EvNotifyContext Background [Interrupt; SIGTERM];
           EvStart (NotifyCtx Background [Interrupt; SIGTERM]);
           EvPrintln "mcp-gopls shutdown complete";
           EvStop;
           EvClose Background] |}).
Proof. reflexivity. Qed.

(** [TestRunReturnsFactoryError]: no service, so nothing to close. *)
Example TestRunReturnsFactoryError :
  run (U := asciiOnly)
    {| DefaultConfig := defaultConfig;
       os_Stat := fun _ => inr (Errno "no such file or directory");
       exec_LookPath := fun _ => inr (Errno "executable file not found in $PATH");
       newServiceFn := fun _ => @inr stubService _ (errors_New "factory failure");
       notifyContextF := NotifyCtx |}
    noFlags initial
  = (Some (Errorf_w "create service: %w" [] (errors_New "factory failure")),
     {| svc := None;
        trace := [EvNewService defaultConfig] |}).
Proof. reflexivity. Qed.

(** A non-positive timeout stops [run] before the factory is called. *)
Example run_rejects_zero_timeout :
  run (U := asciiOnly) (stubEnv newStubService)
    {| flagWorkspace := ""; flagGoplsPath := ""; flagLogFile := "";
       flagLogLevel := "info"; flagLogJSON := false;
       flagRPCTimeout := 0; flagShutdownTimeout := 15000000000 |}
    initial
  = (Some (Errorf "rpc-timeout must be positive, got %s" [OpDuration 0]), initial).
Proof. reflexivity. Qed.

End ReplayMain.

Module ReplayTools.
Import GoStrings GoErrors Tools NotifyScenario HandlerScenario.

(** Target normalisation on the two workspaces. *)
Example normalize_flat_dot :
  @normalizePackageTarget asciiOnly ToolsScenario.flatWorkspace "/ws" "." = ".".
Proof. reflexivity. Qed.

Example normalize_nested_dot_slash :
  @normalizePackageTarget asciiOnly ToolsScenario.nestedWorkspace "/ws" "  ./ " = "./...".
Proof. reflexivity. Qed.

Example normalize_blank :
  @normalizePackageTarget asciiOnly ToolsScenario.flatWorkspace "/ws" "   " = "./...".
Proof. reflexivity. Qed.

Example normalize_unset_workspace :
  @normalizePackageTarget asciiOnly ToolsScenario.nestedWorkspace "" "." = ".".
Proof. reflexivity. Qed.

Example normalize_package :
  @normalizePackageTarget asciiOnly ToolsScenario.nestedWorkspace "/ws" " ./pkg/tools "
  = "./pkg/tools".
Proof. reflexivity. Qed.

(** The four exits of [runCoverageByFunction]. *)
Example pipeline_no_temp_file :
  runCoverageByFunction deafClient tools0 None (Some server7) VNil "./..." flatWorld
  = (({| test := commandResult_zero; cover := None |},
      Some (Errno "no temporary directory")),
     {| files := ToolsScenario.flatWorkspace;
        trace := [EvCreateTemp "" "coverage-*.out"] |}).
Proof. reflexivity. Qed.

Example pipeline_test_cannot_run :
  runCoverageByFunction goMissing tools0 None (Some server7) VNil "./..." flatWorld
  = (({| test := commandResult_zero; cover := None |},
      Some (Errno "executable file not found in $PATH")),
     {| files := ToolsScenario.flatWorkspace;
        trace := [EvCreateTemp "" "coverage-*.out";
                  EvRunCommand "go" ["test"; "./..."; "-coverprofile"; "/tmp/coverage-1.out"];
                  EvRemove "/tmp/coverage-1.out"] |}).
Proof. vm_compute. reflexivity. Qed.

Example pipeline_report_cannot_run :
  runCoverageByFunction reportCannotStart tools0 None (Some server7) VNil "./..." flatWorld
  = (({| test := failingTests; cover := None |}, Some cannotStart),
     {| files := ToolsScenario.flatWorkspace;
        trace := [EvCreateTemp "" "coverage-*.out";
                  EvRunCommand "go" ["test"; "./..."; "-coverprofile"; "/tmp/coverage-1.out"];
                  EvRunCommand "go" ["tool"; "cover"; "-func"; "/tmp/coverage-1.out"];
                  EvRemove "/tmp/coverage-1.out"] |}).
Proof. vm_compute. reflexivity. Qed.

Example pipeline_success_with_failing_tests :
  runCoverageByFunction reportWorks tools0 None (Some server7) VNil "./..." flatWorld
  = (({| test := failingTests; cover := Some coverageReport |}, None),
     {| files := ToolsScenario.flatWorkspace;
        trace := [EvCreateTemp "" "coverage-*.out";
                  EvRunCommand "go" ["test"; "./..."; "-coverprofile"; "/tmp/coverage-1.out"];
                  EvRunCommand "go" ["tool"; "cover"; "-func"; "/tmp/coverage-1.out"];
                  EvRemove "/tmp/coverage-1.out"] |}).
Proof. vm_compute. reflexivity. Qed.

(** [analyze_coverage] in per-function mode, both commands completing. *)
Example analyze_coverage_func :
  fst (@coverageHandler asciiOnly reportWorks tools0 server7 (Some (RequestCtx 1))
         funcRequest flatWorld)
  = (Some (ToolResultJSON
             (<["cover" := VCommand coverageReport]>
                (<["test" := VCommand failingTests]>
                   (<["mode" := VString "func"]> {[ "target" := VString "./..." ]})))),
     None).
Proof. vm_compute. reflexivity. Qed.

(** A notification with an empty message has no "message" parameter, and
    the failing send leaves no mark on the result. *)
Example notification_without_message :
  sendProgressNotification deafClient None (Some server7) (VNumber 42) "" emptyWorld
  = (tt, {| files := ∅;
            trace := [EvNotify 7 Background "notifications/progress"
                        (<["progress" := VNumber 0]>
                           {[ "progressToken" := VNumber 42 ]})] |}).
Proof. vm_compute. reflexivity. Qed.

End ReplayTools.


(* ===================================================================== *)
(** ** Configuration and lifecycle: further properties *)
(* ===================================================================== *)

Module ConfigFacts.
Import GoStrings GoErrors Reference GoStringsFacts Main MainScenario MainFlags.

Lemma parseLogLevel_accepted_in_table `{Unicode} level lvl :
  parseLogLevel level = (lvl, None) -> In (ToLower level, lvl) levelTable.
Proof.
  unfold parseLogLevel. cbv zeta.
  destruct (String.eqb_spec (ToLower level) "debug") as [E|_];
    [intros [= <-]; rewrite E; cbn; tauto|].
  destruct (String.eqb_spec (ToLower level) "info") as [E|_];
    [intros [= <-]; rewrite E; cbn; tauto|].
  destruct (String.eqb_spec (ToLower level) "warn") as [E|_];
    [intros [= <-]; rewrite E; cbn; tauto|].
  destruct (String.eqb_spec (ToLower level) "warning") as [E|_];
    [intros [= <-]; rewrite E; cbn; tauto|].
  destruct (String.eqb_spec (ToLower level) "error") as [E|_];
    [intros [= <-]; rewrite E; cbn; tauto|].
  cbn. discriminate.
Qed.

(** X1: a configuration that [buildConfigFromFlags] returns has the two
    timeouts of the flags, both strictly positive, the JSON toggle of the
    flag, a level that the table gives for the lower-cased level flag, the
    log file of the flag (the default one when the flag is empty), a
    workspace that is the default one or a path [os.Stat] reports as a
    directory, and a gopls path that is the default one or what
    [resolveExecutable] made of the flag. *)
Theorem buildConfig_success_invariants {U : Unicode} {S : Type}
    (env : Env S) (f : Flags) (cfg : Config) :
  buildConfigFromFlags env f = inl cfg ->
  (0 < RPCTimeout cfg)%Z /\ RPCTimeout cfg = flagRPCTimeout f
  /\ (0 < ShutdownTimeout cfg)%Z /\ ShutdownTimeout cfg = flagShutdownTimeout f
  /\ LogJSON cfg = flagLogJSON f
  /\ In (ToLower (flagLogLevel f), LogLevel cfg) levelTable
  /\ LogFile cfg = (if String.eqb (flagLogFile f) ""
                    then LogFile (DefaultConfig env) else flagLogFile f)
  /\ (if String.eqb (flagWorkspace f) ""
      then WorkspaceDir cfg = WorkspaceDir (DefaultConfig env)
      else WorkspaceDir cfg = flagWorkspace f
           /\ exists info, os_Stat env (flagWorkspace f) = inl info /\ IsDir info = true)
  /\ (if String.eqb (flagGoplsPath f) ""
      then GoplsPath cfg = GoplsPath (DefaultConfig env)
      else resolveExecutable env (flagGoplsPath f) = inl (GoplsPath cfg)).
Proof.
  unfold buildConfigFromFlags, ensureDirectory. cbv zeta.
  destruct (String.eqb (flagWorkspace f) "") eqn:Hws;
    [|destruct (os_Stat env (flagWorkspace f)) as [info|e] eqn:Hstat;
      [destruct (IsDir info) eqn:Hdir; cbn [negb]|]; try discriminate];
    (destruct (String.eqb (flagGoplsPath f) "") eqn:Hgp;
      [|destruct (resolveExecutable env (flagGoplsPath f)) as [resolved|e] eqn:Hres;
        try discriminate]);
    (destruct (parseLogLevel (flagLogLevel f)) as [lvl [e|]] eqn:Hlvl; try discriminate);
    apply parseLogLevel_accepted_in_table in Hlvl;
    unfold validateTimeouts; cbn;
    (destruct (flagRPCTimeout f <=? 0)%Z eqn:Hr; try discriminate);
    (destruct (flagShutdownTimeout f <=? 0)%Z eqn:Hs; try discriminate);
    apply Z.leb_gt in Hr; apply Z.leb_gt in Hs;
    intros [= <-]; cbn; repeat split; eauto.
Qed.

Lemma buildConfig_success_invariants_witness :
  buildConfigFromFlags (U := asciiOnly) installedEnv fullFlags
  = inl {| WorkspaceDir := "/ws"; GoplsPath := "/usr/bin/gopls"; LogFile := "app.log";
           LogJSON := true; LogLevel := LevelDebug;
           RPCTimeout := 2000000000; ShutdownTimeout := 3000000000 |}
  /\ (0 < 2000000000)%Z.
Proof.
  split; [reflexivity|].
  exact (proj1 (buildConfig_success_invariants (U := asciiOnly) installedEnv fullFlags
                  _ eq_refl)).
Defined.

Lemma nonpositive_timeout_rejected {U : Unicode} {S : Type} (env : Env S) (f : Flags) :
  (flagRPCTimeout f <= 0 \/ flagShutdownTimeout f <= 0)%Z ->
  exists err, buildConfigFromFlags env f = inr err.
Proof.
  intros Hbad. unfold buildConfigFromFlags. cbv zeta.
  destruct (if String.eqb (flagWorkspace f) "" then _ else _) as [c1|e]; [|eauto].
  destruct (if String.eqb (flagGoplsPath f) "" then _ else _) as [c2|e]; [|eauto].
  destruct (parseLogLevel (flagLogLevel f)) as [lvl [e|]]; [eauto|].
  unfold validateTimeouts. cbn.
  destruct (flagRPCTimeout f <=? 0)%Z eqn:Hr; [eauto|].
  destruct (flagShutdownTimeout f <=? 0)%Z eqn:Hs; [eauto|].
  apply Z.leb_gt in Hr. apply Z.leb_gt in Hs. lia.
Qed.

(** X2: when the RPC timeout or the shutdown timeout of the flags is not
    positive, [run] returns an error and leaves the process as it was: the
    service factory is not called and nothing is started or closed. *)
Theorem run_stops_on_nonpositive_timeout {U : Unicode} {S : Type} {R : serviceRunner S}
    (env : Env S) (f : Flags) (w : World S) :
  (flagRPCTimeout f <= 0 \/ flagShutdownTimeout f <= 0)%Z ->
  exists err, run env f w = (Some err, w).
Proof.
  intros Hbad. destruct (nonpositive_timeout_rejected env f Hbad) as [err Herr].
  exists err. unfold run. rewrite Herr. reflexivity.
Qed.

Lemma run_stops_on_nonpositive_timeout_witness :
  (flagRPCTimeout negativeShutdown <= 0 \/ flagShutdownTimeout negativeShutdown <= 0)%Z
  /\ exists err,
       run (U := asciiOnly) installedEnv negativeShutdown initial = (Some err, initial).
Proof.
  assert (Hbad : (flagRPCTimeout negativeShutdown <= 0
                  \/ flagShutdownTimeout negativeShutdown <= 0)%Z).
  { right. cbn. lia. }
  split; [exact Hbad|].
  exact (run_stops_on_nonpositive_timeout (U := asciiOnly) installedEnv
           negativeShutdown initial Hbad).
Defined.

Ltac settle_calls :=
  cbn; repeat split; intros; cbn in *;
  repeat match goal with
         | H : _ \/ _ |- _ => destruct H
         | H : False |- _ => destruct H
         end;
  try lia; try discriminate; try congruence; try tauto.

(** X3: whatever the flags, the environment and the service do, the calls
    [run] makes are balanced: [Close] is called as often as [Start], at most
    once, only with the background context and as the last call; neither is
    called unless the factory was; and the completion line is printed
    exactly when [run] returns no error. *)
Theorem run_lifecycle_balance {U : Unicode} {S : Type} {R : serviceRunner S}
    (env : Env S) (f : Flags) (w : World S) :
  let (res, w') := run env f w in
  let calls := callsSince w w' in
  length (List.filter isStart calls) = length (List.filter isClose calls)
  /\ (length (List.filter isClose calls) <= 1)%nat
  /\ (length (List.filter isClose calls) <= length (List.filter isNewService calls))%nat
  /\ (forall ctx, In (EvClose ctx) calls ->
        ctx = Background /\ last calls = Some (EvClose Background))
  /\ (res = None <-> In (EvPrintln "mcp-gopls shutdown complete") calls).
Proof.
  destruct w as [sv tr]. unfold run, callsSince.
  destruct (buildConfigFromFlags env f) as [cfg|err]; cbn.
  2:{ rewrite drop_all. settle_calls. }
  unfold defer, call_newServiceFn, call_notifyContextF, svc_Start, svc_Close,
    stop, fmt_Println, on_service, log, bind, ret. cbn.
  destruct (newServiceFn env cfg) as [s0|err]; cbn.
  2:{ rewrite drop_app_length. settle_calls. }
  destruct (Start (notifyContextF env Background [Interrupt; SIGTERM]) s0)
    as [[e|] s1]; cbn;
    destruct (Close Background s1) as [u s2]; cbn;
    rewrite <- !app_assoc; cbn; rewrite drop_app_length; settle_calls.
Qed.

(** X4: when the configuration is built and the factory fails, [run]
    returns the factory's error wrapped as "create service" (the cause is
    what [errors.Unwrap] gives back) and has called the factory only: no
    signal context, no [Start], no [Close]. *)
Theorem run_factory_failure {U : Unicode} {S : Type} {R : serviceRunner S}
    (env : Env S) (f : Flags) (cfg : Config) (err : error) (w : World S) :
  buildConfigFromFlags env f = inl cfg ->
  newServiceFn env cfg = inr err ->
  exists wrapped,
    run env f w = (Some wrapped, {| svc := svc w; trace := trace w ++ [EvNewService cfg] |})
    /\ wrapped = Errorf_w "create service: %w" [] err
    /\ Unwrap wrapped = Some err.
Proof.
  intros Hcfg Hsvc. eexists. split; [|split; reflexivity].
  unfold run. rewrite Hcfg.
  unfold call_newServiceFn, log, bind, ret. cbn. rewrite Hsvc. reflexivity.
Qed.

Lemma run_factory_failure_witness :
  buildConfigFromFlags (U := asciiOnly) failingFactory noFlags = inl defaultConfig
  /\ newServiceFn failingFactory defaultConfig = inr (errors_New "factory failure")
  /\ exists wrapped,
       run (U := asciiOnly) failingFactory noFlags initial
       = (Some wrapped, {| svc := None; trace := [EvNewService defaultConfig] |})
       /\ wrapped = Errorf_w "create service: %w" [] (errors_New "factory failure")
       /\ Unwrap wrapped = Some (errors_New "factory failure").
Proof.
  split; [reflexivity|]. split; [reflexivity|].
  exact (run_factory_failure (U := asciiOnly) failingFactory noFlags defaultConfig
           (errors_New "factory failure") initial eq_refl eq_refl).
Defined.

Lemma exec_mask_bits (mode : Z) :
  (Z.land mode 73 =? 0)%Z = negb (anyExecBit mode).
Proof.
  unfold anyExecBit.
  destruct (Z.eqb_spec (Z.land mode 73) 0) as [E|N].
  - assert (B : forall n, Z.testbit mode n && Z.testbit 73 n = false).
    { intros n. rewrite <- Z.land_spec, E. apply Z.bits_0. }
    pose proof (B 6%Z) as B6. pose proof (B 3%Z) as B3. pose proof (B 0%Z) as B0.
    change (Z.testbit 73 6) with true in B6.
    change (Z.testbit 73 3) with true in B3.
    change (Z.testbit 73 0) with true in B0.
    rewrite andb_true_r in B6, B3, B0.
    rewrite B6, B3, B0. reflexivity.
  - destruct (Z.testbit mode 6) eqn:B6; [reflexivity|].
    destruct (Z.testbit mode 3) eqn:B3; [reflexivity|].
    destruct (Z.testbit mode 0) eqn:B0; [reflexivity|].
    exfalso. apply N. apply Z.bits_inj'. intros n Hn.
    rewrite Z.land_spec, Z.bits_0.
    destruct (Z.testbit 73 n) eqn:T; [|apply andb_false_r].
    assert (Hlt : (n < 7)%Z).
    { destruct (Z.ltb_spec n 7) as [L|G]; [exact L|].
      rewrite Z.bits_above_log2 in T; [discriminate T|lia|].
      change (Z.log2 73) with 6%Z. lia. }
    assert (Hcases : (n = 0 \/ n = 1 \/ n = 2 \/ n = 3 \/ n = 4 \/ n = 5 \/ n = 6)%Z)
      by lia.
    destruct Hcases as [->|[->|[->|[->|[->|[->| ->]]]]]];
      try discriminate T; rewrite ?B0, ?B3, ?B6; reflexivity.
Qed.

(** X5: [resolveExecutable] returns a path exactly when [exec.LookPath]
    resolves the name to it and [os.Stat] reports there a file that is not a
    directory and has the owner, group or other execute bit set; in every
    other case it returns an error. *)
Theorem resolveExecutable_accepts {U : Unicode} {S : Type}
    (env : Env S) (path resolved : string) :
  resolveExecutable env path = inl resolved
  <-> exec_LookPath env path = inl resolved
      /\ exists info, os_Stat env resolved = inl info
                      /\ IsDir info = false /\ anyExecBit (Mode info) = true.
Proof.
  unfold resolveExecutable.
  destruct (exec_LookPath env path) as [r|e].
  - destruct (os_Stat env r) as [info|e] eqn:Hstat.
    + destruct (IsDir info) eqn:Hdir.
      * split; [discriminate|]. intros [[= ->] (i & Hi & Hd & _)]. congruence.
      * rewrite exec_mask_bits. destruct (anyExecBit (Mode info)) eqn:Hx; cbn.
        -- split.
           ++ intros [= ->]. split; [reflexivity|]. eauto.
           ++ intros [[= ->] _]. reflexivity.
        -- split; [discriminate|]. intros [[= ->] (i & Hi & _ & Hb)]. congruence.
    + split; [discriminate|]. intros [[= ->] (i & Hi & _)]. congruence.
  - split; [discriminate|]. intros [E _]. discriminate E.
Qed.

(** X6: [envBool] is false for a variable that is not set, and for a value
    of ASCII bytes it is true exactly when the value is 1, true or yes in
    any letter case. *)
Theorem envBool_case_insensitive {U : Unicode}
    (environ : gmap string string) (key : string) :
  (environ !! key = None -> envBool environ key = false)
  /\ (forall value,
        environ !! key = Some value -> isASCII value = true ->
        (envBool environ key = true
         <-> equalFold value "1" = true \/ equalFold value "true" = true
             \/ equalFold value "yes" = true)).
Proof.
  unfold envBool, os_Getenv. split.
  - intros ->. reflexivity.
  - intros value -> Ha. cbn [default from_option].
    rewrite !orb_true_iff, !String.eqb_eq.
    rewrite (ToLower_equalFold value "1" Ha eq_refl),
      (ToLower_equalFold value "true" Ha eq_refl),
      (ToLower_equalFold value "yes" Ha eq_refl).
    tauto.
Qed.

(** X7: with none of the seven variables set to a non-empty value and no
    flag on the command line, [buildConfigFromFlags] succeeds without
    consulting the file system: the configuration is the default one with
    plain-text logs, the info level, an RPC timeout of 45 s and a shutdown
    timeout of 15 s. *)
Theorem config_without_flags_or_environment {U : Unicode} {S : Type}
    (env : Env S) (environ : gmap string string) (parse : string -> Z + error) :
  (forall key, In key flagVariables -> os_Getenv environ key = "") ->
  buildConfigFromFlags env (flagDefaults environ parse)
  = inl {| WorkspaceDir := WorkspaceDir (DefaultConfig env);
           GoplsPath := GoplsPath (DefaultConfig env);
           LogFile := LogFile (DefaultConfig env);
           LogJSON := false;
           LogLevel := LevelInfo;
           RPCTimeout := 45 * Second;
           ShutdownTimeout := 15 * Second |}.
Proof.
  intros Hunset.
  assert (E : flagDefaults environ parse
              = {| flagWorkspace := ""; flagGoplsPath := ""; flagLogFile := "";
                   flagLogLevel := "info"; flagLogJSON := false;
                   flagRPCTimeout := 45 * Second; flagShutdownTimeout := 15 * Second |}).
  { unfold flagDefaults, envOrDefault, envBool, envDuration.
    rewrite !Hunset by (cbn; tauto). reflexivity. }
  rewrite E. reflexivity.
Qed.

Lemma config_without_flags_or_environment_witness :
  (forall key, In key flagVariables -> os_Getenv {[ "HOME" := "/root" ]} key = "")
  /\ buildConfigFromFlags (U := asciiOnly) installedEnv
       (flagDefaults (U := asciiOnly) {[ "HOME" := "/root" ]} parseTwoDurations)
     = inl {| WorkspaceDir := ""; GoplsPath := "gopls"; LogFile := ""; LogJSON := false;
              LogLevel := LevelInfo; RPCTimeout := 45000000000;
              ShutdownTimeout := 15000000000 |}.
Proof.
  assert (H : forall key, In key flagVariables -> os_Getenv {[ "HOME" := "/root" ]} key = "").
  { intros key Hk. cbn in Hk.
    repeat (destruct Hk as [<-|Hk]; [reflexivity|]). contradiction. }
  split; [exact H|].
  exact (config_without_flags_or_environment (U := asciiOnly) installedEnv
           {[ "HOME" := "/root" ]} parseTwoDurations H).
Defined.

End ConfigFacts.



(* ===================================================================== *)
(** ** Target normalisation: further properties *)
(* ===================================================================== *)

Module NormalizeExtraFacts.
Import GoStrings GoErrors Tools ToolsReference TrimFacts ToolsScenario ToolsExtra.

Lemma isASCII_app (a b : string) : isASCII (a ++ b) = isASCII a && isASCII b.
Proof.
  induction a as [|c a IH]; [reflexivity|].
  rewrite append_cons. simpl. destruct (RuneSelf <=? byte c)%N; [reflexivity|exact IH].
Qed.

Lemma trimStart_fixed t :
  isASCII t = true -> headSpace t = false -> trimStart t = inl t.
Proof.
  destruct t as [|c t]; simpl; [reflexivity|].
  destruct (RuneSelf <=? byte c)%N; [discriminate|].
  intros _ ->. reflexivity.
Qed.

Lemma trimStop_fixed t :
  isASCII t = true -> lastSpace t = false -> trimStop t = inl t.
Proof.
  induction t as [|c t IH]; simpl; [reflexivity|].
  destruct (RuneSelf <=? byte c)%N eqn:Hc; [discriminate|].
  intros Ha Hl. destruct t as [|d t].
  - simpl in Hl |- *. rewrite Hl. reflexivity.
  - rewrite (IH Ha Hl). reflexivity.
Qed.

(** Trimming an ASCII string twice is trimming it once. *)
Lemma TrimSpace_idempotent `{Unicode} s :
  isASCII s = true -> TrimSpace (TrimSpace s) = TrimSpace s.
Proof.
  intros Ha.
  destruct (TrimSpace_ascii s Ha) as (pre & post & Es & _ & _ & Hh & Hl).
  assert (Ht : isASCII (TrimSpace s) = true).
  { rewrite Es in Ha. rewrite !isASCII_app in Ha.
    apply andb_true_iff in Ha as [_ Ha]. apply andb_true_iff in Ha as [Ha _]. exact Ha. }
  unfold TrimSpace at 1.
  rewrite (trimStart_fixed _ Ht Hh), (trimStop_fixed _ Ht Hl). reflexivity.
Qed.

Lemma normalize_all_packages `{Unicode} fs ws :
  normalizePackageTarget fs ws "./..." = "./...".
Proof.
  unfold normalizePackageTarget.
  change (TrimSpace "./...") with "./...". cbn.
  destruct (String.eqb ws ""); reflexivity.
Qed.

(** X8: the target [normalizePackageTarget] returns is never empty, and a
    request that, once trimmed, is neither empty nor "." nor "./" comes back
    as trimmed for every workspace and every file system. *)
Theorem normalizePackageTarget_keeps_explicit_targets `{Unicode}
    (fs : gmap string node) (workspaceDir requested : string) :
  normalizePackageTarget fs workspaceDir requested <> ""
  /\ (TrimSpace requested <> "" -> TrimSpace requested <> "." ->
      TrimSpace requested <> "./" ->
      normalizePackageTarget fs workspaceDir requested = TrimSpace requested).
Proof.
  unfold normalizePackageTarget. cbv zeta.
  destruct (String.eqb_spec (TrimSpace requested) "") as [E|N].
  - split; [discriminate|]. intros Hn. contradiction.
  - destruct (String.eqb workspaceDir ""); [split; [exact N|reflexivity]|].
    destruct (String.eqb_spec (TrimSpace requested) ".") as [E1|N1]; cbn.
    + split; [|intros _ Hn; contradiction].
      destruct (dirHasGoFiles fs workspaceDir) as [[|] [e|]]; cbn;
        try exact N; discriminate.
    + destruct (String.eqb_spec (TrimSpace requested) "./") as [E2|N2]; cbn.
      * split; [|intros _ _ Hn; contradiction].
        destruct (dirHasGoFiles fs workspaceDir) as [[|] [e|]]; cbn;
          try exact N; discriminate.
      * split; [exact N|reflexivity].
Qed.

(** X9: on a request of ASCII bytes, normalising a normalised target
    changes nothing. *)
Theorem normalizePackageTarget_idempotent `{Unicode}
    (fs : gmap string node) (workspaceDir requested : string) :
  isASCII requested = true ->
  normalizePackageTarget fs workspaceDir
    (normalizePackageTarget fs workspaceDir requested)
  = normalizePackageTarget fs workspaceDir requested.
Proof.
  intros Ha. pose proof (TrimSpace_idempotent requested Ha) as Ht.
  unfold normalizePackageTarget at 2 3. cbv zeta.
  destruct (String.eqb (TrimSpace requested) "") eqn:E0;
    [apply normalize_all_packages|].
  destruct (String.eqb workspaceDir "") eqn:Ews.
  { unfold normalizePackageTarget. cbv zeta. rewrite Ht, E0, Ews. reflexivity. }
  destruct (String.eqb (TrimSpace requested) "." || String.eqb (TrimSpace requested) "./")
    eqn:Edot.
  - destruct (dirHasGoFiles fs workspaceDir) as [[|] [e|]] eqn:Hd; cbn;
      try apply normalize_all_packages;
      unfold normalizePackageTarget; cbv zeta; rewrite Ht, E0, Ews, Edot, Hd; reflexivity.
  - unfold normalizePackageTarget. cbv zeta. rewrite Ht, E0, Ews, Edot. reflexivity.
Qed.

Lemma normalizePackageTarget_idempotent_witness :
  isASCII "  ./ " = true
  /\ @normalizePackageTarget asciiOnly nestedWorkspace "/ws"
       (@normalizePackageTarget asciiOnly nestedWorkspace "/ws" "  ./ ")
     = "./...".
Proof.
  split; [reflexivity|].
  rewrite (@normalizePackageTarget_idempotent asciiOnly nestedWorkspace "/ws" "  ./ " eq_refl).
  reflexivity.
Defined.

Lemma hasGoEntry_plain entries : hasGoEntry (plainEntries entries) = hasGoEntry entries.
Proof.
  induction entries as [|e rest IH]; [reflexivity|].
  unfold plainEntries in *. simpl. destruct (IsDir e) eqn:Hd; simpl; [exact IH|].
  rewrite Hd, IH. reflexivity.
Qed.

(** X10: what [dirHasGoFiles] answers does not depend on the order in which
    the directory is listed, and entries that are directories never count,
    whatever their names. *)
Theorem dirHasGoFiles_order_independent
    (fs fs' : gmap string node) (dir : string) (entries entries' : list DirEntry) :
  os_ReadDir fs dir = inl entries ->
  os_ReadDir fs' dir = inl entries' ->
  plainEntries entries ≡ₚ plainEntries entries' ->
  dirHasGoFiles fs dir = dirHasGoFiles fs' dir.
Proof.
  intros H1 H2 Hp. unfold dirHasGoFiles. rewrite H1, H2. f_equal.
  rewrite <- (hasGoEntry_plain entries), <- (hasGoEntry_plain entries').
  induction Hp as [|x l l' _ IH|x y l|l l' l'' _ IH1 _ IH2].
  - reflexivity.
  - simpl. rewrite IH. reflexivity.
  - simpl. destruct (IsDir x), (IsDir y), (HasSuffix (Name x) ".go"),
      (HasSuffix (Name y) ".go"); reflexivity.
  - congruence.
Qed.

Lemma dirHasGoFiles_order_independent_witness :
  os_ReadDir nestedWorkspace "/ws"
  = inl [ {| Name := "cmd"; IsDir := true |};
          {| Name := "go.mod"; IsDir := false |};
          {| Name := "pkg.go"; IsDir := true |} ]
  /\ os_ReadDir bareWorkspace "/ws" = inl [ {| Name := "go.mod"; IsDir := false |} ]
  /\ dirHasGoFiles nestedWorkspace "/ws" = dirHasGoFiles bareWorkspace "/ws".
Proof.
  split; [reflexivity|]. split; [reflexivity|].
  exact (dirHasGoFiles_order_independent nestedWorkspace bareWorkspace "/ws"
           [ {| Name := "cmd"; IsDir := true |};
             {| Name := "go.mod"; IsDir := false |};
             {| Name := "pkg.go"; IsDir := true |} ]
           [ {| Name := "go.mod"; IsDir := false |} ]
           eq_refl eq_refl (Permutation_refl _)).
Defined.

End NormalizeExtraFacts.


(* ===================================================================== *)
(** ** The pipeline and the handlers: further properties *)
(* ===================================================================== *)

Module CallFacts.
Import GoStrings GoErrors Tools ToolsReference PipelineReference NotifyReference.
Import HandlerReference ToolsExtra.

(** What [sendProgressNotification] does to the world: the files stay, and
    at most one notification is appended. *)
Lemma sendProgressNotification_calls env ctx srv token message w :
  exists notes,
    sendProgressNotification env ctx srv token message w
    = (tt, {| files := files w; trace := trace w ++ notes |})
    /\ (length notes <= 1)%nat
    /\ Forall (fun e => isNotify e = true) notes
    /\ (token = VNil -> notes = []).
Proof.
  destruct w as [fs tr]. unfold sendProgressNotification.
  assert (Hnone : exists notes,
            (tt, {| files := fs; trace := tr |})
            = (tt, {| files := files {| files := fs; trace := tr |};
                      trace := trace {| files := fs; trace := tr |} ++ notes |})
            /\ (length notes <= 1)%nat
            /\ Forall (fun e => isNotify e = true) notes
            /\ (token = VNil -> notes = [])).
  { exists []. cbn. rewrite app_nil_r. repeat split; auto. }
  destruct srv as [s|]; [|exact Hnone].
  destruct (is_nil token) eqn:Hnil; [exact Hnone|].
  destruct (NewProgressNotification env token 0 message) as [p|err] eqn:HN;
    [|exact Hnone].
  eexists [_]. unfold SendNotificationToClient, bind, ret. cbn.
  split; [reflexivity|]. split; [lia|]. split; [repeat constructor|].
  intros ->. discriminate Hnil.
Qed.

Lemma runCommand_calls env t ctx srv token name args w :
  exists result err fs,
    runCommand env t ctx srv token name args w
    = ((result, err), {| files := fs; trace := trace w ++ [EvRunCommand name args] |})
    /\ (quietCommands env -> fs = files w).
Proof.
  unfold runCommand.
  destruct (exec_Command env w (workspaceDir t) name args) as [[result err] fs] eqn:E.
  exists result, err, fs. split; [reflexivity|].
  intros Hq. specialize (Hq w (workspaceDir t) name args). rewrite E in Hq. exact Hq.
Qed.

Ltac step_pipeline :=
  unfold runCoverageByFunction, os_CreateTemp, os_Remove, file_Close, runCommand,
    defer, log, bind, ret; cbn.

(** The calls of the pipeline, in order. *)
Lemma pipeline_events env t ctx srv token target w :
  exists evs,
    trace (snd (runCoverageByFunction env t ctx srv token target w))
    = (trace w ++ evs)%list
    /\ pipelineCalls target (fst (os_CreateTemp env "" "coverage-*.out" w)) evs.
Proof.
  destruct w as [fs tr]. unfold pipelineCalls. step_pipeline.
  destruct (temp_name env _ "" "coverage-*.out") as [name|err]; cbn;
    [|eexists; split; reflexivity].
  destruct (fs !! name); cbn; [eexists; split; reflexivity|].
  destruct (exec_Command env _ (workspaceDir t) "go" ["test"; _; _; _])
    as [[testResult err] fs2]; cbn.
  destruct (failed_to_run err); cbn.
  - destruct (fs2 !! name) as [[|[|? ?]]|]; cbn; rewrite <- !app_assoc;
      (eexists; split; [reflexivity|left; reflexivity]).
  - destruct (exec_Command env _ (workspaceDir t) "go" ["tool"; _; _; _])
      as [[coverResult coverErr] fs3]; cbn.
    destruct (failed_to_run coverErr); cbn;
      destruct (fs3 !! name) as [[|[|? ?]]|]; cbn; rewrite <- !app_assoc;
      (eexists; split; [reflexivity|right; reflexivity]).
Qed.

(** Notifications are no other calls. *)
Lemma otherCalls_notes notes :
  Forall (fun e => isNotify e = true) notes -> otherCalls notes = [].
Proof.
  unfold otherCalls. induction 1 as [|e l He _ IH]; [reflexivity|].
  cbn. rewrite He. exact IH.
Qed.

Lemma otherCalls_app l1 l2 : otherCalls (l1 ++ l2) = (otherCalls l1 ++ otherCalls l2)%list.
Proof. apply List.filter_app. Qed.

(** A notification is no command. *)
Lemma command_not_among_notes name args notes :
  Forall (fun e => isNotify e = true) notes -> ~ In (EvRunCommand name args) notes.
Proof.
  intros Hn Hin. rewrite Forall_forall in Hn.
  apply list_elem_of_In, Hn in Hin. discriminate Hin.
Qed.

(** The two shapes of what the pipeline returns. *)
Lemma pipeline_result_cases env t ctx srv token target w :
  let (res, _) := runCoverageByFunction env t ctx srv token target w in
  (exists e, snd res = Some e /\ cover (fst res) = None)
  \/ (snd res = None /\ exists c, cover (fst res) = Some c).
Proof.
  destruct w as [fs tr]. step_pipeline.
  destruct (temp_name env _ "" "coverage-*.out") as [name|err]; cbn; [|left; eauto].
  destruct (fs !! name); cbn; [left; eauto|].
  destruct (exec_Command env _ (workspaceDir t) "go" ["test"; _; _; _])
    as [[testResult err] fs2]; cbn.
  destruct (failed_to_run err) eqn:Hf; cbn.
  - destruct err as [e|]; [|discriminate Hf].
    destruct (fs2 !! name) as [[|[|? ?]]|]; cbn; left; eauto.
  - destruct (exec_Command env _ (workspaceDir t) "go" ["tool"; _; _; _])
      as [[coverResult coverErr] fs3]; cbn.
    destruct (failed_to_run coverErr) eqn:Hc; cbn.
    + destruct coverErr as [e|]; [|discriminate Hc].
      destruct (fs3 !! name) as [[|[|? ?]]|]; cbn; left; eauto.
    + destruct (fs3 !! name) as [[|[|? ?]]|]; cbn; right; eauto.
Qed.

(** X11: [runCoverageByFunction] returns a report exactly when it returns
    no error, so a caller that sees a nil error always finds the report. *)
Theorem coverage_report_iff_no_error
    (env : Env) (t : LSPTools) (ctx : option Context) (srv : option MCPServer)
    (token : ProgressToken) (target : string) (w : World) :
  let (res, _) := runCoverageByFunction env t ctx srv token target w in
  snd res = None <-> is_Some (cover (fst res)).
Proof.
  pose proof (pipeline_result_cases env t ctx srv token target w) as Hc.
  destruct (runCoverageByFunction env t ctx srv token target w) as [res w'].
  destruct Hc as [(e & He & Hn)|(He & c & Hs)]; rewrite He.
  - rewrite Hn. split; [discriminate|intros [? ?]; discriminate].
  - rewrite Hs. split; [eauto|reflexivity].
Qed.

(** X12: when the external commands leave the files alone, so does the
    pipeline: after [runCoverageByFunction] the file system is what it was
    before, temporary profile included. *)
Theorem coverage_leaves_files_as_found
    (env : Env) (t : LSPTools) (ctx : option Context) (srv : option MCPServer)
    (token : ProgressToken) (target : string) (w : World) :
  quietCommands env ->
  files (snd (runCoverageByFunction env t ctx srv token target w)) = files w.
Proof.
  intros Hq. destruct w as [fs tr]. step_pipeline.
  destruct (temp_name env _ "" "coverage-*.out") as [name|err]; cbn; [|reflexivity].
  destruct (fs !! name) eqn:Hname; cbn; [reflexivity|].
  pose proof (Hq {| files := <[name:=File]> fs;
                    trace := tr ++ [EvCreateTemp "" "coverage-*.out"] |}
                (workspaceDir t) "go" ["test"; target; "-coverprofile"; name]) as Q1.
  destruct (exec_Command env _ (workspaceDir t) "go" ["test"; _; _; _])
    as [[testResult err] fs2]; cbn in Q1 |- *. subst fs2.
  destruct (failed_to_run err); cbn.
  - rewrite lookup_insert_eq. cbn. apply delete_insert_id, Hname.
  - match goal with
    | |- context [exec_Command env ?w0 ?ws ?n ?a] => pose proof (Hq w0 ws n a) as Q2
    end.
    destruct (exec_Command env _ (workspaceDir t) "go" ["tool"; _; _; _])
      as [[coverResult coverErr] fs3]; cbn in Q2 |- *. subst fs3.
    destruct (failed_to_run coverErr); cbn;
      rewrite lookup_insert_eq; cbn; apply delete_insert_id, Hname.
Qed.

Lemma coverage_leaves_files_as_found_witness :
  quietCommands quietGo
  /\ files (snd (runCoverageByFunction quietGo HandlerScenario.tools0
                   None (Some NotifyScenario.server7) VNil "./..."
                   HandlerScenario.flatWorld))
     = ToolsScenario.flatWorkspace.
Proof.
  assert (Hq : quietCommands quietGo) by (intros w ws name args; reflexivity).
  split; [exact Hq|].
  exact (coverage_leaves_files_as_found quietGo HandlerScenario.tools0
           None (Some NotifyScenario.server7) VNil "./..." HandlerScenario.flatWorld Hq).
Defined.

End CallFacts.


Module HandlerExtraFacts.
Import GoStrings GoErrors Tools ToolsReference PipelineReference NotifyReference.
Import HandlerReference ToolsExtra CallFacts NormalizeExtraFacts.

Ltac open_handler :=
  unfold goTestHandler, coverageHandler, read, bind, ret; cbv beta iota zeta.

Lemma goTestHandler_unfold `{Unicode} env t s ctx request w :
  goTestHandler env t s ctx request w
  = (let token := getProgressToken (Params_Meta request) in
     let target :=
       normalizePackageTarget (files w) (workspaceDir t) (requestedPath "./..." request) in
     let (_, w1) := sendProgressNotification env ctx (Some s) token
                      ("Running go test for " ++ target) w in
     let '((result, err), w2) :=
       runCommand env t ctx (Some s) token "go" ["test"; target] w1 in
     (if failed_to_run err
      then (Some (ToolResultError "go test failed" err), None)
      else (Some (ToolResultJSON
                    (<["result" := VCommand result]> {[ "target" := VString target ]})),
            None),
      w2)).
Proof.
  open_handler. fold (requestedPath "./..." request).
  destruct (sendProgressNotification _ _ _ _ _ _) as [u w1]. cbv beta iota.
  destruct (runCommand _ _ _ _ _ _ _ _) as [[result err] w2]. cbv beta iota.
  destruct (failed_to_run err); reflexivity.
Qed.

Lemma coverageHandler_simple `{Unicode} env t s ctx request w :
  requestedMode request <> "func" ->
  coverageHandler env t s ctx request w
  = (let token := getProgressToken (Params_Meta request) in
     let packagePath :=
       normalizePackageTarget (files w) (workspaceDir t) (requestedPath "" request) in
     let (_, w1) := sendProgressNotification env ctx (Some s) token
                      ("Running go test -cover for " ++ packagePath) w in
     let '((testResult, err), w2) :=
       runCommand env t ctx (Some s) token "go" ["test"; packagePath; "-cover"] w1 in
     (if failed_to_run err
      then (Some (ToolResultError "go test failed" err), None)
      else (Some (ToolResultJSON
                    (<["test" := VCommand testResult]>
                       (<["mode" := VString (requestedMode request)]>
                          {[ "target" := VString packagePath ]}))),
            None),
      w2)).
Proof.
  intros Hmode. open_handler. fold (requestedPath "" request).
  fold (requestedMode request). apply String.eqb_neq in Hmode. rewrite Hmode.
  cbv iota.
  destruct (sendProgressNotification _ _ _ _ _ _) as [u w1]. cbv beta iota.
  destruct (runCommand _ _ _ _ _ _ _ _) as [[result err] w2]. cbv beta iota.
  destruct (failed_to_run err); reflexivity.
Qed.

Lemma coverageHandler_func `{Unicode} env t s ctx request w :
  requestedMode request = "func" ->
  coverageHandler env t s ctx request w
  = (let token := getProgressToken (Params_Meta request) in
     let packagePath :=
       normalizePackageTarget (files w) (workspaceDir t) (requestedPath "" request) in
     let base : gmap string any :=
       <["mode" := VString "func"]> {[ "target" := VString packagePath ]} in
     let (_, w0) := sendProgressNotification env ctx (Some s) token
                      ("Running go test with coverage for " ++ packagePath) w in
     let '((result, err), w1) :=
       runCoverageByFunction env t ctx (Some s) token packagePath w0 in
     match err with
     | Some _ => ((Some (ToolResultError "coverage analysis failed" err), None), w1)
     | None =>
         let (_, w2) := sendProgressNotification env ctx (Some s) token
                          ("Coverage analysis finished for " ++ packagePath) w1 in
         ((Some (ToolResultJSON
                   match cover result with
                   | Some c =>
                       <["cover" := VCommand c]> (<["test" := VCommand (test result)]> base)
                   | None => <["test" := VCommand (test result)]> base
                   end),
           None), w2)
     end).
Proof.
  intros Hmode. open_handler. fold (requestedPath "" request).
  fold (requestedMode request). rewrite Hmode.
  change (String.eqb "func" "func") with true. cbv beta iota.
  set (token := getProgressToken (Params_Meta request)).
  set (packagePath :=
         normalizePackageTarget (files w) (workspaceDir t) (requestedPath "" request)).
  destruct (sendProgressNotification env ctx (Some s) token
              ("Running go test with coverage for " ++ packagePath) w) as [u w0].
  cbv beta iota.
  destruct (runCoverageByFunction env t ctx (Some s) token packagePath w0)
    as [[result err] w1].
  cbv beta iota.
  destruct err as [e|]; [reflexivity|].
  destruct (sendProgressNotification env ctx (Some s) token
              ("Coverage analysis finished for " ++ packagePath) w1) as [u2 w2].
  cbv beta iota.
  destruct (cover result); reflexivity.
Qed.

(** The calls of [run_go_test]: at most one notification, then the
    command. *)
Lemma goTest_calls `{Unicode} env t s ctx request w :
  exists notes,
    trace (snd (goTestHandler env t s ctx request w))
    = (trace w ++ notes
       ++ [EvRunCommand "go"
             ["test"; normalizePackageTarget (files w) (workspaceDir t)
                        (requestedPath "./..." request)]])%list
    /\ (length notes <= 1)%nat
    /\ Forall (fun e => isNotify e = true) notes
    /\ (getProgressToken (Params_Meta request) = VNil -> notes = []).
Proof.
  rewrite goTestHandler_unfold. cbv zeta.
  set (token := getProgressToken (Params_Meta request)).
  set (target := normalizePackageTarget _ _ _).
  destruct (sendProgressNotification_calls env ctx (Some s) token
              ("Running go test for " ++ target) w) as (notes & E & Hl & Hn & Hnil).
  rewrite E.
  destruct (runCommand_calls env t ctx (Some s) token "go" ["test"; target]
              {| files := files w; trace := trace w ++ notes |})
    as (result & err & fs & E2 & _).
  rewrite E2. cbn [snd trace]. exists notes.
  split; [rewrite <- app_assoc; reflexivity|]. split; [exact Hl|]. split; [exact Hn|].
  exact Hnil.
Qed.

(** The calls of [analyze_coverage] in simple mode. *)
Lemma coverage_simple_calls `{Unicode} env t s ctx request w :
  requestedMode request <> "func" ->
  exists notes,
    trace (snd (coverageHandler env t s ctx request w))
    = (trace w ++ notes
       ++ [EvRunCommand "go"
             ["test"; normalizePackageTarget (files w) (workspaceDir t)
                        (requestedPath "" request); "-cover"]])%list
    /\ (length notes <= 1)%nat
    /\ Forall (fun e => isNotify e = true) notes
    /\ (getProgressToken (Params_Meta request) = VNil -> notes = []).
Proof.
  intros Hmode. rewrite (coverageHandler_simple env t s ctx request w Hmode). cbv zeta.
  set (token := getProgressToken (Params_Meta request)).
  set (packagePath := normalizePackageTarget _ _ _).
  destruct (sendProgressNotification_calls env ctx (Some s) token
              ("Running go test -cover for " ++ packagePath) w)
    as (notes & E & Hl & Hn & Hnil).
  rewrite E.
  destruct (runCommand_calls env t ctx (Some s) token "go" ["test"; packagePath; "-cover"]
              {| files := files w; trace := trace w ++ notes |})
    as (result & err & fs & E2 & _).
  rewrite E2. cbn [snd trace]. exists notes.
  split; [rewrite <- app_assoc; reflexivity|]. split; [exact Hl|]. split; [exact Hn|].
  exact Hnil.
Qed.

(** The calls of [analyze_coverage] in per-function mode, in order: the
    notifications apart, they are the calls of the pipeline. *)
Lemma coverage_func_events `{Unicode} env t s ctx request w :
  requestedMode request = "func" ->
  let token := getProgressToken (Params_Meta request) in
  let packagePath :=
    normalizePackageTarget (files w) (workspaceDir t) (requestedPath "" request) in
  let w0 := snd (sendProgressNotification env ctx (Some s) token
                   ("Running go test with coverage for " ++ packagePath) w) in
  exists notes evs notes',
    trace (snd (coverageHandler env t s ctx request w))
    = (trace w ++ notes ++ evs ++ notes')%list
    /\ Forall (fun e => isNotify e = true) notes
    /\ Forall (fun e => isNotify e = true) notes'
    /\ pipelineCalls packagePath (fst (os_CreateTemp env "" "coverage-*.out" w0)) evs.
Proof.
  intros Hmode token packagePath w0.
  rewrite (coverageHandler_func env t s ctx request w Hmode). cbv zeta.
  fold token. fold packagePath. subst w0.
  destruct (sendProgressNotification_calls env ctx (Some s) token
              ("Running go test with coverage for " ++ packagePath) w)
    as (notes & E & _ & Hn & _).
  rewrite E. cbn [snd].
  destruct (pipeline_events env t ctx (Some s) token packagePath
              {| files := files w; trace := trace w ++ notes |}) as (evs & Etr & Hevs).
  destruct (runCoverageByFunction env t ctx (Some s) token packagePath _)
    as [[result err] w1].
  cbn [snd trace] in Etr.
  destruct err as [e|].
  - exists notes, evs, []. cbn [snd]. rewrite Etr, !app_nil_r.
    split; [rewrite <- app_assoc; reflexivity|]. split; [exact Hn|].
    split; [constructor|exact Hevs].
  - destruct (sendProgressNotification_calls env ctx (Some s) token
                ("Coverage analysis finished for " ++ packagePath) w1)
      as (notes' & E' & _ & Hn' & _).
    rewrite E'. cbn [snd trace]. exists notes, evs, notes'. rewrite Etr.
    split; [rewrite <- !app_assoc; reflexivity|]. split; [exact Hn|].
    split; [exact Hn'|exact Hevs].
Qed.

(** X13: the notifications apart, [run_go_test], and [analyze_coverage] in
    any mode other than "func", make exactly one call: the run of [go test]
    on the normalised target (with [-cover] for the coverage tool).  They
    create no temporary file, remove nothing and run no report. *)
Theorem single_command_handlers `{Unicode}
    (env : Env) (t : LSPTools) (s : MCPServer) (ctx : option Context)
    (request : CallToolRequest) (w : World) :
  otherCalls (eventsSince w (snd (goTestHandler env t s ctx request w)))
  = [EvRunCommand "go"
       ["test"; normalizePackageTarget (files w) (workspaceDir t)
                  (requestedPath "./..." request)]]
  /\ (requestedMode request <> "func" ->
      otherCalls (eventsSince w (snd (coverageHandler env t s ctx request w)))
      = [EvRunCommand "go"
           ["test"; normalizePackageTarget (files w) (workspaceDir t)
                      (requestedPath "" request); "-cover"]]).
Proof.
  unfold eventsSince. split.
  - destruct (goTest_calls env t s ctx request w) as (notes & E & _ & Hn & _).
    rewrite E, drop_app_length, otherCalls_app, (otherCalls_notes notes Hn).
    reflexivity.
  - intros Hmode.
    destruct (coverage_simple_calls env t s ctx request w Hmode)
      as (notes & E & _ & Hn & _).
    rewrite E, drop_app_length, otherCalls_app, (otherCalls_notes notes Hn).
    reflexivity.
Qed.

Lemma requestedPath_default dflt request :
  noPathArgument request -> requestedPath dflt request = dflt.
Proof.
  unfold noPathArgument, requestedPath.
  destruct (GetArguments request) as [args|]; [|reflexivity].
  intros ->. reflexivity.
Qed.

Lemma normalize_empty_request `{Unicode} fs ws : normalizePackageTarget fs ws "" = "./...".
Proof. reflexivity. Qed.

(** X15: a request with no string under "path" (no arguments at all, no
    such key, or a value that is not a string) is served for "./...",
    whatever the workspace holds.  [run_go_test] runs [go test ./...];
    [analyze_coverage] runs [go test ./... -cover] in simple mode and, in
    per-function mode, [go test ./... -coverprofile] on the temporary
    profile once that is created; no [go test] that either tool runs has
    another target; and every payload reports the target "./...". *)
Theorem missing_path_means_all_packages `{Unicode}
    (env : Env) (t : LSPTools) (s : MCPServer) (ctx : option Context)
    (request : CallToolRequest) (w : World) :
  noPathArgument request ->
  In (EvRunCommand "go" ["test"; "./..."])
     (eventsSince w (snd (goTestHandler env t s ctx request w)))
  /\ (requestedMode request <> "func" ->
      In (EvRunCommand "go" ["test"; "./..."; "-cover"])
         (eventsSince w (snd (coverageHandler env t s ctx request w))))
  /\ (forall payload,
        fst (fst (goTestHandler env t s ctx request w)) = Some (ToolResultJSON payload)
        \/ fst (fst (coverageHandler env t s ctx request w)) = Some (ToolResultJSON payload) ->
        payload !! "target" = Some (VString "./..."))
  /\ (requestedMode request = "func" ->
      forall (tempFile : string) (w1 : World),
        os_CreateTemp env "" "coverage-*.out"
          (snd (sendProgressNotification env ctx (Some s)
                  (getProgressToken (Params_Meta request))
                  ("Running go test with coverage for " ++ "./...") w))
        = (inl tempFile, w1) ->
        In (EvRunCommand "go" ["test"; "./..."; "-coverprofile"; tempFile])
           (eventsSince w (snd (coverageHandler env t s ctx request w))))
  /\ (forall args,
        In (EvRunCommand "go" ("test" :: args))
           (eventsSince w (snd (goTestHandler env t s ctx request w)))
        \/ In (EvRunCommand "go" ("test" :: args))
             (eventsSince w (snd (coverageHandler env t s ctx request w))) ->
        exists rest, args = "./..." :: rest).
Proof.
  intros Hno.
  pose proof (requestedPath_default "./..." request Hno) as P1.
  pose proof (requestedPath_default "" request Hno) as P2.
  split; [|split; [|split; [|split]]].
  - unfold eventsSince.
    destruct (goTest_calls env t s ctx request w) as (notes & E & _).
    rewrite E, drop_app_length, P1, normalize_all_packages.
    apply in_or_app. right. left. reflexivity.
  - intros Hmode. unfold eventsSince.
    destruct (coverage_simple_calls env t s ctx request w Hmode) as (notes & E & _).
    rewrite E, drop_app_length, P2, normalize_empty_request.
    apply in_or_app. right. left. reflexivity.
  - intros payload [Hp|Hp].
    + rewrite goTestHandler_unfold in Hp. cbv zeta in Hp.
      rewrite P1, normalize_all_packages in Hp.
      destruct (sendProgressNotification _ _ _ _ _ _) as [u w1].
      destruct (runCommand _ _ _ _ _ _ _ _) as [[result err] w2].
      destruct (failed_to_run err); cbn in Hp; [discriminate Hp|].
      injection Hp as <-. rewrite lookup_insert_ne by discriminate.
      apply lookup_insert_eq.
    + destruct (String.eqb_spec (requestedMode request) "func") as [Hm|Hm].
      * rewrite (coverageHandler_func env t s ctx request w Hm) in Hp. cbv zeta in Hp.
        rewrite P2, normalize_empty_request in Hp.
        destruct (sendProgressNotification _ _ _ _ _ _) as [u w0].
        destruct (runCoverageByFunction _ _ _ _ _ _ _) as [[result err] w1].
        destruct err as [e|]; [cbn in Hp; discriminate Hp|].
        destruct (sendProgressNotification _ _ _ _ _ _) as [u2 w2]. cbn in Hp.
        injection Hp as <-.
        destruct (cover result); rewrite !lookup_insert_ne by discriminate;
          apply lookup_insert_eq.
      * rewrite (coverageHandler_simple env t s ctx request w Hm) in Hp. cbv zeta in Hp.
        rewrite P2, normalize_empty_request in Hp.
        destruct (sendProgressNotification _ _ _ _ _ _) as [u w1].
        destruct (runCommand _ _ _ _ _ _ _ _) as [[result err] w2].
        destruct (failed_to_run err); cbn in Hp; [discriminate Hp|].
        injection Hp as <-. rewrite !lookup_insert_ne by discriminate.
        apply lookup_insert_eq.
  - intros Hmode tempFile w1 Hcreated. unfold eventsSince.
    destruct (coverage_func_events env t s ctx request w Hmode)
      as (notes & evs & notes' & E & _ & _ & Hevs).
    rewrite P2, normalize_empty_request, Hcreated in Hevs. cbn [fst pipelineCalls] in Hevs.
    rewrite E, drop_app_length.
    apply in_or_app. right. apply in_or_app. left.
    destruct Hevs as [-> | ->]; right; left; reflexivity.
  - intros args [Hin|Hin]; unfold eventsSince in Hin.
    + destruct (goTest_calls env t s ctx request w) as (notes & E & _ & Hn & _).
      rewrite E, drop_app_length, P1, normalize_all_packages in Hin.
      apply in_app_or in Hin as [Hin|[Hin|[]]].
      * destruct (command_not_among_notes _ _ _ Hn Hin).
      * injection Hin as <-. eauto.
    + destruct (String.eqb_spec (requestedMode request) "func") as [Hm|Hm].
      * destruct (coverage_func_events env t s ctx request w Hm)
          as (notes & evs & notes' & E & Hn & Hn' & Hevs).
        rewrite P2, normalize_empty_request in Hevs.
        rewrite E, drop_app_length in Hin.
        apply in_app_or in Hin as [Hin|Hin];
          [destruct (command_not_among_notes _ _ _ Hn Hin)|].
        apply in_app_or in Hin as [Hin|Hin];
          [|destruct (command_not_among_notes _ _ _ Hn' Hin)].
        unfold pipelineCalls in Hevs.
        destruct (fst (os_CreateTemp env "" "coverage-*.out" _)) as [tempFile|err].
        -- destruct Hevs as [-> | ->]; cbn in Hin.
           ++ destruct Hin as [Hin|[Hin|[Hin|[]]]]; try discriminate Hin.
              injection Hin as <-. eauto.
           ++ destruct Hin as [Hin|[Hin|[Hin|[Hin|[]]]]]; try discriminate Hin.
              injection Hin as <-. eauto.
        -- subst evs. destruct Hin as [Hin|[]]. discriminate Hin.
      * destruct (coverage_simple_calls env t s ctx request w Hm)
          as (notes & E & _ & Hn & _).
        rewrite E, drop_app_length, P2, normalize_empty_request in Hin.
        apply in_app_or in Hin as [Hin|[Hin|[]]].
        -- destruct (command_not_among_notes _ _ _ Hn Hin).
        -- injection Hin as <-. eauto.
Qed.

Lemma missing_path_means_all_packages_witness :
  noPathArgument oddRequest
  /\ noPathArgument HandlerScenario.funcRequest
  /\ In (EvRunCommand "go" ["test"; "./..."])
       (eventsSince HandlerScenario.flatWorld
          (snd (@goTestHandler asciiOnly quietGo HandlerScenario.tools0
                  NotifyScenario.server7 None oddRequest HandlerScenario.flatWorld)))
  /\ In (EvRunCommand "go" ["test"; "./..."; "-coverprofile"; "/tmp/coverage-2.out"])
       (eventsSince HandlerScenario.flatWorld
          (snd (@coverageHandler asciiOnly quietGo HandlerScenario.tools0
                  NotifyScenario.server7 None HandlerScenario.funcRequest
                  HandlerScenario.flatWorld))).
Proof.
  assert (Hno : noPathArgument oddRequest) by reflexivity.
  assert (Hnf : noPathArgument HandlerScenario.funcRequest) by reflexivity.
  split; [exact Hno|]. split; [exact Hnf|]. split.
  - exact (proj1 (@missing_path_means_all_packages asciiOnly quietGo HandlerScenario.tools0
                    NotifyScenario.server7 None oddRequest HandlerScenario.flatWorld Hno)).
  - pose proof (@missing_path_means_all_packages asciiOnly quietGo HandlerScenario.tools0
                  NotifyScenario.server7 None HandlerScenario.funcRequest
                  HandlerScenario.flatWorld Hnf) as (_ & _ & _ & Hfunc & _).
    exact (Hfunc eq_refl "/tmp/coverage-2.out" _ eq_refl).
Defined.

(** X16: in per-function mode [analyze_coverage] returns either the error
    result "coverage analysis failed" with a non-nil error, or the JSON of
    a payload with exactly the four fields target, mode, test and cover:
    a payload without the report is never returned. *)
Theorem per_function_result_shape `{Unicode}
    (env : Env) (t : LSPTools) (s : MCPServer) (ctx : option Context)
    (request : CallToolRequest) (w : World) :
  requestedMode request = "func" ->
  match fst (coverageHandler env t s ctx request w) with
  | (Some (ToolResultError text err), None) =>
      text = "coverage analysis failed" /\ err <> None
  | (Some (ToolResultJSON payload), None) =>
      dom payload = ({["target"; "mode"; "test"; "cover"]} : gset string)
      /\ payload !! "mode" = Some (VString "func")
      /\ (exists r, payload !! "test" = Some (VCommand r))
      /\ (exists c, payload !! "cover" = Some (VCommand c))
  | _ => False
  end.
Proof.
  intros Hmode. rewrite (coverageHandler_func env t s ctx request w Hmode). cbv zeta.
  destruct (sendProgressNotification _ _ _ _ _ _) as [u w0].
  match goal with
  | |- context [runCoverageByFunction env t ctx ?sv ?tok ?tg w0] =>
      pose proof (pipeline_result_cases env t ctx sv tok tg w0) as Hc;
      destruct (runCoverageByFunction env t ctx sv tok tg w0) as [[result err] w1]
  end.
  cbn [fst snd] in Hc.
  destruct Hc as [(e & -> & Hn)|(-> & c & Hs)].
  - cbn. split; [reflexivity|discriminate].
  - destruct (sendProgressNotification _ _ _ _ _ _) as [u2 w2]. cbn. rewrite Hs.
    split; [|split; [|split]].
    + rewrite !dom_insert_L, dom_singleton_L. apply set_eq. intros x. set_unfold. tauto.
    + rewrite !lookup_insert_ne by discriminate. apply lookup_insert_eq.
    + eexists. rewrite lookup_insert_ne by discriminate. apply lookup_insert_eq.
    + eexists. apply lookup_insert_eq.
Qed.

Lemma per_function_result_shape_witness :
  requestedMode HandlerScenario.funcRequest = "func"
  /\ match fst (@coverageHandler asciiOnly HandlerScenario.goMissing HandlerScenario.tools0
                  NotifyScenario.server7 None HandlerScenario.funcRequest
                  HandlerScenario.flatWorld) with
     | (Some (ToolResultError text err), None) =>
         text = "coverage analysis failed" /\ err <> None
     | (Some (ToolResultJSON payload), None) =>
         dom payload = ({["target"; "mode"; "test"; "cover"]} : gset string)
         /\ payload !! "mode" = Some (VString "func")
         /\ (exists r, payload !! "test" = Some (VCommand r))
         /\ (exists c, payload !! "cover" = Some (VCommand c))
     | _ => False
     end.
Proof.
  split; [reflexivity|].
  exact (@per_function_result_shape asciiOnly HandlerScenario.goMissing
           HandlerScenario.tools0 NotifyScenario.server7 None HandlerScenario.funcRequest
           HandlerScenario.flatWorld eq_refl).
Defined.

(** X17: in per-function mode, when the test command and the report
    command both complete (failing tests included), [analyze_coverage]
    returns the JSON of the payload with the target, the mode "func", the
    test result and the report, after removing the temporary file and
    sending the closing notification. *)
Theorem per_function_success `{Unicode}
    (env : Env) (t : LSPTools) (s : MCPServer) (ctx : option Context)
    (request : CallToolRequest) (w w1 w2 w3 : World) (tempFile : string)
    (testResult coverResult : commandResult) (err coverErr : option error) :
  let token := getProgressToken (Params_Meta request) in
  let packagePath :=
    normalizePackageTarget (files w) (workspaceDir t) (requestedPath "" request) in
  let w0 := snd (sendProgressNotification env ctx (Some s) token
                   ("Running go test with coverage for " ++ packagePath) w) in
  requestedMode request = "func" ->
  os_CreateTemp env "" "coverage-*.out" w0 = (inl tempFile, w1) ->
  runCommand env t ctx (Some s) token "go" (testArgs packagePath tempFile) w1
  = ((testResult, err), w2) ->
  completed err ->
  runCommand env t ctx (Some s) token "go" (reportArgs tempFile) w2
  = ((coverResult, coverErr), w3) ->
  completed coverErr ->
  coverageHandler env t s ctx request w
  = ((Some (ToolResultJSON
              (<["cover" := VCommand coverResult]>
                 (<["test" := VCommand testResult]>
                    (<["mode" := VString "func"]>
                       {[ "target" := VString packagePath ]})))),
      None),
     snd (sendProgressNotification env ctx (Some s) token
            ("Coverage analysis finished for " ++ packagePath)
            (snd (os_Remove tempFile w3)))).
Proof.
  intros token packagePath w0 Hmode Htemp Htest Hdone Hreport Hdone'.
  apply PipelineFacts.failed_to_run_completed in Hdone.
  apply PipelineFacts.failed_to_run_completed in Hdone'.
  assert (Hpipe : runCoverageByFunction env t ctx (Some s) token packagePath w0
                  = (({| test := testResult; cover := Some coverResult |}, None),
                     snd (os_Remove tempFile w3))).
  { unfold runCoverageByFunction, defer, bind at 1. rewrite Htemp.
    unfold file_Close, bind, ret. unfold testArgs in Htest. rewrite Htest, Hdone.
    unfold reportArgs in Hreport. rewrite Hreport, Hdone'.
    destruct (os_Remove tempFile w3) as [o w4]. reflexivity. }
  rewrite (coverageHandler_func env t s ctx request w Hmode). cbv zeta.
  fold token. fold packagePath.
  destruct (sendProgressNotification env ctx (Some s) token
              ("Running go test with coverage for " ++ packagePath) w) as [u w0'].
  subst w0. cbn [snd] in Hpipe. rewrite Hpipe.
  destruct (sendProgressNotification env ctx (Some s) token
              ("Coverage analysis finished for " ++ packagePath) _) as [u2 w5].
  reflexivity.
Qed.

Lemma per_function_success_witness :
  requestedMode HandlerScenario.funcRequest = "func"
  /\ completed None
  /\ fst (@coverageHandler asciiOnly quietGo HandlerScenario.tools0 NotifyScenario.server7
            None HandlerScenario.funcRequest HandlerScenario.flatWorld)
     = (Some (ToolResultJSON
                (<["cover" := VCommand {| Stdout := "ok"; Stderr := ""; ExitCode := 0 |}]>
                   (<["test" := VCommand {| Stdout := "ok"; Stderr := ""; ExitCode := 0 |}]>
                      (<["mode" := VString "func"]>
                         {[ "target" := VString "./..." ]})))),
        None).
Proof.
  assert (Hc : completed None) by (left; reflexivity).
  split; [reflexivity|]. split; [exact Hc|].
  set (w0 := snd (sendProgressNotification quietGo None (Some NotifyScenario.server7)
                    (VString "tok-1") "Running go test with coverage for ./..."
                    HandlerScenario.flatWorld)).
  set (w1 := snd (os_CreateTemp quietGo "" "coverage-*.out" w0)).
  set (w2 := snd (runCommand quietGo HandlerScenario.tools0 None
                    (Some NotifyScenario.server7) (VString "tok-1") "go"
                    (testArgs "./..." "/tmp/coverage-2.out") w1)).
  set (w3 := snd (runCommand quietGo HandlerScenario.tools0 None
                    (Some NotifyScenario.server7) (VString "tok-1") "go"
                    (reportArgs "/tmp/coverage-2.out") w2)).
  rewrite (@per_function_success asciiOnly quietGo HandlerScenario.tools0
             NotifyScenario.server7 None HandlerScenario.funcRequest
             HandlerScenario.flatWorld w1 w2 w3 "/tmp/coverage-2.out"
             {| Stdout := "ok"; Stderr := ""; ExitCode := 0 |}
             {| Stdout := "ok"; Stderr := ""; ExitCode := 0 |} None None
             eq_refl eq_refl eq_refl Hc eq_refl Hc).
  reflexivity.
Defined.

(** X18: after [registerTestingTools] the server, with its identity
    unchanged, has the tool analyze_coverage with the handler of
    [registerCoverageAnalysis] and exactly two properties, "path" and
    "output_format", each of type string with a description and neither
    required. *)
Theorem analyze_coverage_schema `{Unicode} (env : Env) (t : LSPTools) (s : MCPServer) :
  let s' := registerTestingTools env t s in
  srv_id s' = srv_id s
  /\ exists st,
       tools s' !! "analyze_coverage" = Some st
       /\ Tool_Name (tool st) = "analyze_coverage"
       /\ handler st = coverageHandler env t s
       /\ dom (Properties (tool st)) = ({["path"; "output_format"]} : gset string)
       /\ (forall name schema,
             Properties (tool st) !! name = Some schema ->
             schema !! "type" = Some (VString "string")
             /\ (exists d, schema !! "description" = Some (VString d))
             /\ dom schema = ({["type"; "description"]} : gset string))
       /\ Required_ (tool st) = [].
Proof.
  intros s'. subst s'. split; [reflexivity|].
  rewrite HandlerFacts.registerTestingTools_table.
  eexists. split.
  { rewrite lookup_insert_ne by discriminate. apply lookup_insert_eq. }
  split; [reflexivity|]. split; [reflexivity|].
  cbn [tool].
  match goal with
  | |- context [Properties ?tl] =>
      assert (HP : Properties tl
                   = <["output_format" :=
                         <["description" :=
                             VString "Format of the coverage output: 'summary' (default) or 'func' (per function)"]>
                           {[ "type" := VString "string" ]}]>
                       (<["path" :=
                            <["description" :=
                                VString "Path to the package or directory to analyze. Defaults to ./..."]>
                              {[ "type" := VString "string" ]}]> ∅))
        by reflexivity;
      rewrite HP; clear HP
  end.
  split; [|split; [|reflexivity]].
  - rewrite !dom_insert_L, dom_empty_L. apply set_eq. intros x. set_unfold. tauto.
  - intros name schema Hl.
    apply lookup_insert_Some in Hl as [[_ <-]|[_ Hl]].
    + split; [reflexivity|]. split; [eexists; reflexivity|].
      rewrite dom_insert_L, dom_singleton_L. apply set_eq. intros x. set_unfold. tauto.
    + apply lookup_insert_Some in Hl as [[_ <-]|[_ Hl]].
      * split; [reflexivity|]. split; [eexists; reflexivity|].
        rewrite dom_insert_L, dom_singleton_L. apply set_eq. intros x. set_unfold. tauto.
      * rewrite lookup_empty in Hl. discriminate Hl.
Qed.

End HandlerExtraFacts.


Module ReplayFlags.
Import GoStrings GoErrors Main MainScenario MainFlags.

(** [TestEnvHelpers]. *)
Example TestEnvHelpers_bool :
  envBool (U := asciiOnly) {[ "BOOL_TRUE" := "yes" ]} "BOOL_TRUE" = true
  /\ envBool (U := asciiOnly) {[ "BOOL_TRUE" := "yes" ]} "MISSING_BOOL" = false.
Proof. split; reflexivity. Qed.

Example TestEnvHelpers_duration :
  envDuration {[ "DURATION" := "150ms" ]} parseTwoDurations "DURATION" Second = 150000000%Z.
Proof. reflexivity. Qed.

Example TestEnvHelpers_fallback :
  envOrDefault {[ "DURATION" := "150ms" ]} "UNSET" "fallback" = "fallback".
Proof. reflexivity. Qed.

(** An unparsable duration falls back without an error. *)
Example envDuration_unparsable :
  envDuration {[ "DURATION" := "soon" ]} parseTwoDurations "DURATION" Second = Second.
Proof. reflexivity. Qed.

(** [TestBuildConfigFromFlagsAndEnv], with the log flags given on the
    command line and the rest read from the environment. *)
Example TestBuildConfigFromFlagsAndEnv :
  let environ : gmap string string :=
    {[ "MCP_GOPLS_WORKSPACE" := "/ws"; "MCP_GOPLS_LOG_LEVEL" := "debug";
       "MCP_GOPLS_RPC_TIMEOUT" := "2s"; "MCP_GOPLS_SHUTDOWN_TIMEOUT" := "2s" ]} in
  let d := flagDefaults (U := asciiOnly) environ parseTwoDurations in
  buildConfigFromFlags (U := asciiOnly) installedEnv
    {| flagWorkspace := flagWorkspace d; flagGoplsPath := flagGoplsPath d;
       flagLogFile := "app.log"; flagLogLevel := flagLogLevel d; flagLogJSON := true;
       flagRPCTimeout := flagRPCTimeout d; flagShutdownTimeout := flagShutdownTimeout d |}
  = inl {| WorkspaceDir := "/ws"; GoplsPath := "gopls"; LogFile := "app.log";
           LogJSON := true; LogLevel := LevelDebug;
           RPCTimeout := 2000000000; ShutdownTimeout := 2000000000 |}.
Proof. vm_compute. reflexivity. Qed.

End ReplayFlags.
